(** * Atomic chess (ChessVar.py): a shallow embedding and its properties

    The Python module keeps the board as a dictionary from the row number
    (1-8) to a list of eight cells, a cell being the string "_" or a piece
    object.  Squares arrive as strings in algebraic notation and are parsed
    again by every method.  Python exceptions (ValueError from [int] and
    [list.index], KeyError from the dictionary, IndexError from a list or a
    string) are modelled by an error monad.

    A square is a Stdlib [string]: a sequence of characters with codes 0 to
    255, standing for the Python string made of the same Latin-1 code
    points.  Python strings with characters beyond Latin-1 are not values
    of this type, and every statement about squares is a statement about
    squares written in Latin-1. *)

From Stdlib Require Import ZArith String Ascii.
From stdpp Require Import gmap list fin_maps.

Open Scope Z_scope.

(** ** Exceptions *)

Inductive exn := ValueError | KeyError | IndexError.

Inductive res (A : Type) : Type :=
  | Ok (a : A)
  | Raise (e : exn).
Arguments Ok {A} a.
Arguments Raise {A} e.

(** Sequencing: an exception raised by the first computation propagates.
    The instance gives the notation [x ← m; k]. *)
Global Instance res_bind : MBind res := λ A B f m,
  match m with
  | Ok a => f a
  | Raise e => Raise e
  end.

Definition raises {A} (m : res A) : Prop := ∃ e, m = Raise e.

Global Instance exn_eq_dec : EqDecision exn.
Proof. solve_decision. Defined.
Global Instance res_eq_dec {A} `{EqDecision A} : EqDecision (res A).
Proof. solve_decision. Defined.

(** ** Pieces *)

Inductive color := White | Black.
Inductive kind := Pawn | King | Knight | Rook | Bishop | Queen.

Record piece := Piece { p_color : color; p_letter : kind }.

Global Instance color_eq_dec : EqDecision color.
Proof. solve_decision. Defined.
Global Instance kind_eq_dec : EqDecision kind.
Proof. solve_decision. Defined.
Global Instance piece_eq_dec : EqDecision piece.
Proof. solve_decision. Defined.

(** The strings the source uses for colours and piece letters. *)
Definition color_str (c : color) : string :=
  match c with White => "w" | Black => "b" end.

Definition letter_str (k : kind) : string :=
  match k with
  | Pawn => "P" | King => "K" | Knight => "N"
  | Rook => "R" | Bishop => "B" | Queen => "Q"
  end.

(** [Piece.get_piece], [Piece.get_color], [Piece.get_type]. *)
Definition get_piece (p : piece) : string :=
  (color_str (p_color p) ++ letter_str (p_letter p))%string.
Definition get_color (p : piece) : color := p_color p.
Definition get_type (p : piece) : string := letter_str (p_letter p).

(** A cell of the board: [None] is the string "_". *)
Definition cell := option piece.

Definition is_blank (x : cell) : bool :=
  match x with None => true | Some _ => false end.

(** ** The board: a dictionary of lists *)

Abbreviation board := (gmap Z (list cell)).

(** Python list indexing [l[i]]: negative indices count from the end. *)
Definition py_index {A} (l : list A) (i : Z) : res A :=
  let n := Z.of_nat (length l) in
  let j := if i <? 0 then i + n else i in
  if (j <? 0) || (n <=? j) then Raise IndexError
  else match l !! Z.to_nat j with
       | Some x => Ok x
       | None => Raise IndexError
       end.

(** Python list assignment [l[i] = x]. *)
Definition py_setitem {A} (l : list A) (i : Z) (x : A) : res (list A) :=
  let n := Z.of_nat (length l) in
  let j := if i <? 0 then i + n else i in
  if (j <? 0) || (n <=? j) then Raise IndexError
  else Ok (<[Z.to_nat j := x]> l).

(** [board[row][column]] *)
Definition board_get (b : board) (row column : Z) : res cell :=
  match b !! row with
  | None => Raise KeyError
  | Some l => py_index l column
  end.

(** [board[row][column] = x]; the row list is updated in place. *)
Definition board_set (b : board) (row column : Z) (x : cell) : res board :=
  match b !! row with
  | None => Raise KeyError
  | Some l => l' ← py_setitem l column x; Ok (<[row := l']> b)
  end.

(** ** Parsing a square *)

(** [point[i]] on a string. *)
Definition str_index (s : string) (i : nat) : res ascii :=
  match String.get i s with
  | Some c => Ok c
  | None => Raise IndexError
  end.

(** [int(c)] on a one-character string whose character is in Latin-1.  Among
    these 256 characters [int] reads the ten digits "0" to "9" and raises
    ValueError on every other one, signs, blanks, superscript digits and
    fractions included.  [int] also reads the decimal digits of other
    scripts (Arabic-Indic, fullwidth, ...) as their value; they lie beyond
    Latin-1 and are not characters of a [string]. *)
Definition int_of_char (c : ascii) : res Z :=
  let n := Z.of_N (N_of_ascii c) in
  if (48 <=? n) && (n <=? 57) then Ok (n - 48) else Raise ValueError.

Definition columns : list ascii :=
  ["a"; "b"; "c"; "d"; "e"; "f"; "g"; "h"]%char.

(** [l.index(c)] *)
Fixpoint list_index (c : ascii) (l : list ascii) : res Z :=
  match l with
  | [] => Raise ValueError
  | x :: l' =>
      if Ascii.eqb x c then Ok 0
      else i ← list_index c l'; Ok (i + 1)
  end.

(** The four assignments every method starts with, in source order:
    row_A, row_B, column_A, column_B. *)
Definition indices (point_A point_B : string) : res (Z * Z * Z * Z) :=
  a1 ← str_index point_A 1;
  row_A ← int_of_char a1;
  b1 ← str_index point_B 1;
  row_B ← int_of_char b1;
  a0 ← str_index point_A 0;
  column_A ← list_index a0 columns;
  b0 ← str_index point_B 0;
  column_B ← list_index b0 columns;
  Ok (row_A, row_B, column_A, column_B).

(** ** Loops *)

(** [range(a, b)] *)
Definition py_range (a b : Z) : list Z := seqZ a (b - a).

(** A [for] loop whose body updates a state and may raise. *)
Fixpoint for_each {A S} (l : list A) (s : S) (body : S → A → res S) : res S :=
  match l with
  | [] => Ok s
  | x :: l' => s' ← body s x; for_each l' s' body
  end.

(** [for column in cols: if board[row][column] != "_": return False]
    followed by [return True]. *)
Fixpoint scan_columns (b : board) (row : Z) (cols : list Z) : res bool :=
  match cols with
  | [] => Ok true
  | column :: rest =>
      x ← board_get b row column;
      if is_blank x then scan_columns b row rest else Ok false
  end.

(** The same loop over rows in a fixed column. *)
Fixpoint scan_rows (b : board) (rows : list Z) (column : Z) : res bool :=
  match rows with
  | [] => Ok true
  | row :: rest =>
      x ← board_get b row column;
      if is_blank x then scan_rows b rest column else Ok false
  end.

(** The diagonal loops: [column] is a variable stepped by [step] at the end
    of each iteration. *)
Fixpoint scan_diagonal (b : board) (rows : list Z) (column step : Z) : res bool :=
  match rows with
  | [] => Ok true
  | row :: rest =>
      x ← board_get b row column;
      if is_blank x then scan_diagonal b rest (column + step) step else Ok false
  end.

(** ** Movement rules of the six pieces *)

Module Pawn.
Definition get_movement (point_A point_B : string) (color : color) (b : board) : res bool :=
  '(row_A, row_B, column_A, column_B) ← indices point_A point_B;
  match color with
  | White =>
      if (row_A =? 2) && (column_A =? column_B) then
        Ok ((row_B - row_A =? 1) || (row_B - row_A =? 2))
      else
        x ← board_get b row_B column_B;
        if negb (is_blank x) && (row_B - row_A =? 1) then
          Ok (Z.abs (column_A - column_B) =? 1)
        else
          y ← board_get b row_B column_B;
          Ok (is_blank y && (column_A =? column_B) && (row_B - row_A =? 1))
  | Black =>
      if (row_A =? 7) && (column_A =? column_B) then
        Ok ((row_A - row_B =? 1) || (row_A - row_B =? 2))
      else
        x ← board_get b row_B column_B;
        if negb (is_blank x) && (row_A - row_B =? 1) then
          Ok (Z.abs (column_B - column_A) =? 1)
        else
          y ← board_get b row_B column_B;
          Ok (is_blank y && (column_A =? column_B) && (row_A - row_B =? 1))
  end.
End Pawn.

Module King.
Definition get_movement (point_A point_B : string) (color : color) (b : board) : res bool :=
  '(row_A, row_B, column_A, column_B) ← indices point_A point_B;
  x ← board_get b row_B column_B;
  if negb (is_blank x) then Ok false
  else if (row_A =? row_B) && (Z.abs (column_A - column_B) =? 1) then Ok true
  else if (column_A =? column_B) && (Z.abs (row_A - row_B) =? 1) then Ok true
  else if (Z.abs (column_A - column_B) =? 1) && (Z.abs (row_A - row_B) =? 1) then Ok true
  else Ok false.
End King.

Module Knight.
Definition get_movement (point_A point_B : string) (color : color) (b : board) : res bool :=
  '(row_A, row_B, column_A, column_B) ← indices point_A point_B;
  if (Z.abs (row_A - row_B) =? 2) && (Z.abs (column_A - column_B) =? 1) then Ok true
  else if (Z.abs (column_A - column_B) =? 2) && (Z.abs (row_A - row_B) =? 1) then Ok true
  else Ok false.
End Knight.

Module Rook.
Definition get_movement (point_A point_B : string) (color : color) (b : board) : res bool :=
  '(row_A, row_B, column_A, column_B) ← indices point_A point_B;
  if (row_A =? row_B) && (column_A <? column_B) then
    scan_columns b row_A (py_range (column_A + 1) column_B)
  else if (row_A =? row_B) && (column_A >? column_B) then
    scan_columns b row_A (py_range (column_B + 1) column_A)
  else if (column_A =? column_B) && (row_A <? row_B) then
    scan_rows b (py_range (row_A + 1) row_B) column_A
  else if (column_A =? column_B) && (row_A >? row_B) then
    scan_rows b (py_range (row_B + 1) row_A) column_A
  else Ok false.
End Rook.

Module Bishop.
Definition get_movement (point_A point_B : string) (color : color) (b : board) : res bool :=
  '(row_A, row_B, column_A, column_B) ← indices point_A point_B;
  if (row_A =? row_B) || (column_A =? column_B) then Ok false
  else if negb (Z.abs (row_A - row_B) =? Z.abs (column_A - column_B)) then Ok false
  else if (row_A <? row_B) && (column_A <? column_B) then
    scan_diagonal b (py_range (row_A + 1) row_B) (column_A + 1) 1
  else if (row_A <? row_B) && (column_A >? column_B) then
    scan_diagonal b (py_range (row_A + 1) row_B) (column_A - 1) (-1)
  else if (row_A >? row_B) && (column_A <? column_B) then
    scan_diagonal b (py_range (row_B + 1) row_A) (column_B - 1) (-1)
  else if (row_A >? row_B) && (column_A >? column_B) then
    scan_diagonal b (py_range (row_B + 1) row_A) (column_B + 1) 1
  else Ok false.
End Bishop.

Module Queen.
Definition get_movement (point_A point_B : string) (color : color) (b : board) : res bool :=
  '(row_A, row_B, column_A, column_B) ← indices point_A point_B;
  (* straight moves *)
  if (row_A =? row_B) && (column_A <? column_B) then
    scan_columns b row_A (py_range (column_A + 1) column_B)
  else if (row_A =? row_B) && (column_A >? column_B) then
    scan_columns b row_A (py_range (column_B + 1) column_A)
  else if (column_A =? column_B) && (row_A <? row_B) then
    scan_rows b (py_range (row_A + 1) row_B) column_A
  else if (column_A =? column_B) && (row_A >? row_B) then
    scan_rows b (py_range (row_B + 1) row_A) column_A
  (* diagonal moves *)
  else if (row_A <? row_B) && (column_A <? column_B) then
    scan_diagonal b (py_range (row_A + 1) row_B) (column_A + 1) 1
  else if (row_A <? row_B) && (column_A >? column_B) then
    scan_diagonal b (py_range (row_A + 1) row_B) (column_A - 1) (-1)
  else if (row_A >? row_B) && (column_A <? column_B) then
    scan_diagonal b (py_range (row_B + 1) row_A) (column_B - 1) (-1)
  else if (row_A >? row_B) && (column_A >? column_B) then
    scan_diagonal b (py_range (row_B + 1) row_A) (column_B + 1) 1
  else Ok false.
End Queen.

(** The method call [space_A.get_movement(...)]: dispatch on the class of
    the piece. *)
Definition get_movement (p : piece) (point_A point_B : string) (color : color)
    (b : board) : res bool :=
  match p_letter p with
  | Pawn => Pawn.get_movement point_A point_B color b
  | King => King.get_movement point_A point_B color b
  | Knight => Knight.get_movement point_A point_B color b
  | Rook => Rook.get_movement point_A point_B color b
  | Bishop => Bishop.get_movement point_A point_B color b
  | Queen => Queen.get_movement point_A point_B color b
  end.

(** ** ChessBoard *)

(** The guard [row < 1 or row > 8 or column < 0 or column > 7] of the two
    explosion loops. *)
Definition off_board (row column : Z) : bool :=
  (row <? 1) || (row >? 8) || (column <? 0) || (column >? 7).

(** Body of the inner loop of [check_move]; the state is the pair of flags
    (dead_white, dead_black).  Both tests assign [dead_white], as in the
    source. *)
Definition kings_body (b : board) (row : Z) (flags : bool * bool) (column : Z)
    : res (bool * bool) :=
  let '(dead_white, dead_black) := flags in
  if off_board row column then Ok flags
  else
    x ← board_get b row column;
    match x with
    | None => Ok flags
    | Some p =>
        let dead_white := if String.eqb (get_piece p) "wK" then true else dead_white in
        let dead_white := if String.eqb (get_piece p) "bK" then true else dead_white in
        Ok (dead_white, dead_black)
    end.

Definition kings_in_blast (b : board) (row_B column_B : Z) : res (bool * bool) :=
  for_each (py_range (row_B - 1) (row_B + 2)) (false, false) (λ flags row,
    for_each (py_range (column_B - 1) (column_B + 2)) flags (kings_body b row)).

Definition check_move (b : board) (point_A point_B : string) (color : color)
    : res bool :=
  '(row_A, row_B, column_A, column_B) ← indices point_A point_B;
  space_A ← board_get b row_A column_A;
  space_B ← board_get b row_B column_B;
  match space_A with
  | None => Ok false
  | Some pA =>
      if negb (bool_decide (get_color pA = color)) then Ok false
      else if match space_B with
              | Some pB => bool_decide (get_color pB = color)
              | None => false
              end
      then Ok false
      else if (column_B >? 7) || (column_B <? 0) || (row_B >? 8) || (row_B <? 0)
      then Ok false
      else
        result ← get_movement pA point_A point_B color b;
        if negb result then Ok false
        else
          '(dead_white, dead_black) ← kings_in_blast b row_B column_B;
          if dead_white && dead_black then Ok false
          else Ok true
  end.

(** Body of the inner loop of the explosion in [move_piece]; the state is
    the board. *)
Definition explode_body (row : Z) (b : board) (column : Z) : res board :=
  if off_board row column then Ok b
  else
    x ← board_get b row column;
    match x with
    | None => Ok b
    | Some p =>
        if String.eqb (get_type p) "P" then Ok b
        else board_set b row column None
    end.

Definition explode (b : board) (row_B column_B : Z) : res board :=
  for_each (py_range (row_B - 1) (row_B + 2)) b (λ b row,
    for_each (py_range (column_B - 1) (column_B + 2)) b (explode_body row)).

Definition move_piece (b : board) (point_A point_B : string) : res board :=
  '(row_A, row_B, column_A, column_B) ← indices point_A point_B;
  space_B ← board_get b row_B column_B;
  if is_blank space_B then
    space_A ← board_get b row_A column_A;
    b ← board_set b row_B column_B space_A;
    board_set b row_A column_A None
  else
    b ← board_set b row_A column_A None;
    b ← board_set b row_B column_B None;
    explode b row_B column_B.

(** The scan of [check_king]: the flags (white_king, black_king) after
    visiting one cell, one row, every row of the dictionary.  The dictionary
    is visited row by row; the flags only ever go from False to True, so the
    order of the rows does not show in the result. *)
Definition king_flags (flags : bool * bool) (space : cell) : bool * bool :=
  match space with
  | None => flags
  | Some p =>
      (if String.eqb (get_piece p) "wK" then true else fst flags,
       if String.eqb (get_piece p) "bK" then true else snd flags)
  end.

Definition scan_kings (b : board) : bool * bool :=
  foldl (λ flags entry, foldl king_flags flags (snd entry))
        (false, false) (map_to_list b).

(** ** ChessVar *)

Inductive status := UNFINISHED | WHITE_WON | BLACK_WON.

Global Instance status_eq_dec : EqDecision status.
Proof. solve_decision. Defined.

Record game := Game {
  g_board : board;
  game_state : status;
  turn : color
}.

Definition set_game_state (g : game) (who_won : status) : game :=
  {| g_board := g_board g; game_state := who_won; turn := turn g |}.

Definition set_board (g : game) (b : board) : game :=
  {| g_board := b; game_state := game_state g; turn := turn g |}.

Definition set_turn (g : game) (c : color) : game :=
  {| g_board := g_board g; game_state := game_state g; turn := c |}.

Definition check_king (g : game) : game :=
  let '(white_king, black_king) := scan_kings (g_board g) in
  let g := if black_king && negb white_king then set_game_state g BLACK_WON else g in
  let g := if white_king && negb black_king then set_game_state g WHITE_WON else g in
  g.

(** The undecorated [make_move]: the returned boolean and the game after
    the call. *)
Definition make_move_body (g : game) (point_A point_B : string) : res (bool * game) :=
  if negb (bool_decide (game_state g = UNFINISHED)) then Ok (false, g)
  else
    result ← check_move (g_board g) point_A point_B (turn g);
    if negb result then Ok (false, g)
    else
      b ← move_piece (g_board g) point_A point_B;
      Ok (true, check_king (set_board g b)).

(** [move_decorator]: the turn changes when the wrapped call returned True. *)
Definition move_decorator (function : game → string → string → res (bool * game))
    (g : game) (point_A point_B : string) : res (bool * game) :=
  r ← function g point_A point_B;
  let '(result, g) := r : bool * game in
  if result then
    match turn g with
    | White => Ok (result, set_turn g Black)
    | Black => Ok (result, set_turn g White)
    end
  else Ok (result, g).

Definition make_move : game → string → string → res (bool * game) :=
  move_decorator make_move_body.

(** The starting position built by [ChessBoard.__init__] and the game built
    by [ChessVar.__init__]. *)
Definition back_rank (c : color) : list cell :=
  [Some (Piece c Rook); Some (Piece c Knight); Some (Piece c Bishop);
   Some (Piece c Queen); Some (Piece c King); Some (Piece c Bishop);
   Some (Piece c Knight); Some (Piece c Rook)].

Definition pawn_rank (c : color) : list cell := replicate 8 (Some (Piece c Pawn)).

Definition empty_rank : list cell := replicate 8 None.

Definition initial_board : board :=
  <[8 := back_rank Black]> (<[7 := pawn_rank Black]> (<[6 := empty_rank]>
  (<[5 := empty_rank]> (<[4 := empty_rank]> (<[3 := empty_rank]>
  (<[2 := pawn_rank White]> (<[1 := back_rank White]> ∅))))))).

Definition new_game : game :=
  {| g_board := initial_board; game_state := UNFINISHED; turn := White |}.

(** A sequence of calls to [make_move]; the booleans returned are collected
    in order. *)
Fixpoint play (g : game) (moves : list (string * string)) : res (list bool * game) :=
  match moves with
  | [] => Ok ([], g)
  | (point_A, point_B) :: rest =>
      '(r, g) ← make_move g point_A point_B;
      '(rs, g) ← play g rest;
      Ok (r :: rs, g)
  end.

(** ** Vocabulary of the statements *)

(** Character code of a character. *)
Definition code (c : ascii) : Z := Z.of_N (N_of_ascii c).

(** A square in algebraic notation: a file letter a-h followed by a rank
    digit 1-8.  Like the source, nothing is asked of what follows the first
    two characters. *)
Definition on_board (point : string) : bool :=
  match point with
  | String f (String d _) =>
      (97 <=? code f) && (code f <=? 104) && (49 <=? code d) && (code d <=? 56)
  | _ => false
  end.

(** Column index (0-7) and row number (1-8) of a square. *)
Definition file_of (point : string) : Z :=
  match point with
  | String f _ => code f - 97
  | EmptyString => 0
  end.

Definition rank_of (point : string) : Z :=
  match point with
  | String _ (String d _) => code d - 48
  | _ => 0
  end.

(** The shape the board dictionary has throughout a game: keys 1 to 8, each
    holding a list of eight cells. *)
Definition wf_board (b : board) : bool :=
  forallb (λ entry, (1 <=? fst entry) && (fst entry <=? 8)
                    && (length (snd entry) =? 8)%nat) (map_to_list b)
  && forallb (λ r, bool_decide (is_Some (b !! r))) (seqZ 1 8).

Definition board_ok (b : board) : Prop :=
  (∀ r l, b !! r = Some l → 1 ≤ r ≤ 8 ∧ length l = 8%nat) ∧
  (∀ r, 1 ≤ r ≤ 8 → is_Some (b !! r)).

(** The cell of an on-board square after an explosion reached it: pawns
    stay, everything else goes. *)
Definition blast (x : cell) : cell :=
  match x with
  | Some p => if bool_decide (p_letter p = Pawn) then x else None
  | None => None
  end.

(** No piece other than a pawn stands in the cell. *)
Definition no_non_pawn (x : cell) : Prop :=
  ∀ p, x = Some p → p_letter p = Pawn.

(** The 3x3 neighbourhood of (row_B, column_B). *)
Definition in_blast (row_B column_B row column : Z) : Prop :=
  row_B - 1 ≤ row ≤ row_B + 1 ∧ column_B - 1 ≤ column ≤ column_B + 1.

(** A king of the given colour stands on one of the 64 squares. *)
Definition has_king (b : board) (c : color) : bool :=
  existsb (λ row,
    existsb (λ column,
      bool_decide (board_get b row column = Ok (Some (Piece c King))))
      (seqZ 0 8))
    (seqZ 1 8).

(** The flag [check_king] keeps for a colour. *)
Definition flag_of (c : color) (flags : bool * bool) : bool :=
  match c with White => fst flags | Black => snd flags end.

(** One square away in one of the eight directions. *)
Definition one_step (row_A column_A row_B column_B : Z) : Prop :=
  Z.abs (row_A - row_B) ≤ 1 ∧ Z.abs (column_A - column_B) ≤ 1 ∧
  (row_A ≠ row_B ∨ column_A ≠ column_B).

Definition other (c : color) : color :=
  match c with White => Black | Black => White end.

(** The rank a pawn of the given colour starts on, and how many ranks a
    move takes it towards the other side. *)
Definition home_rank (c : color) : Z :=
  match c with White => 2 | Black => 7 end.

Definition advance (c : color) (row_A row_B : Z) : Z :=
  match c with White => row_B - row_A | Black => row_A - row_B end.

(** The first two characters of a square are a file letter a-h and a
    decimal digit: what the four opening assignments need to succeed. *)
Definition parses (point : string) : bool :=
  match point with
  | String f (String d _) =>
      (97 <=? code f) && (code f <=? 104) && (48 <=? code d) && (code d <=? 57)
  | _ => false
  end.

(** A square cut down to its first two characters. *)
Definition first_two (point : string) : string :=
  match point with
  | String f (String d _) => String f (String d EmptyString)
  | _ => point
  end.

(** Number of calls that returned True. *)
Definition accepted (results : list bool) : nat :=
  length (filter (λ r, r = true) results).

(** The status that goes with the kings standing on a board. *)
Definition status_of_kings (b : board) : status :=
  match has_king b White, has_king b Black with
  | false, true => BLACK_WON
  | true, false => WHITE_WON
  | _, _ => UNFINISHED
  end.

(** The game after a sequence of calls that all return; the starting game
    stands in if one of them raises. *)
Definition game_after (moves : list (string * string)) : game :=
  match play new_game moves with
  | Ok (_, g) => g
  | Raise _ => new_game
  end.

(** Positions used below, each given by the moves that lead to it. *)

(** White's queen on d1 with e2 vacated. *)
Definition queen_moves : list (string * string) :=
  [("e2", "e4"); ("a7", "a6")]%string.

(** A black knight on e3, in front of the white pawn on e2. *)
Definition knight_moves : list (string * string) :=
  [("a2", "a3"); ("g8", "f6"); ("a3", "a4"); ("f6", "g4");
   ("a4", "a5"); ("g4", "e3")]%string.

(** White king on f4, black king on e6, black pawn on e5, white knight on
    f3: the capture f3xe5 has both kings in its blast. *)
Definition two_kings_moves : list (string * string) :=
  [("e2", "e4"); ("e7", "e5"); ("g1", "f3"); ("e8", "e7"); ("e1", "e2");
   ("e7", "e6"); ("e2", "e3"); ("a7", "a6"); ("e3", "f4"); ("a6", "a5")]%string.

(** White's knight takes on e7 and the blast removes the black king. *)
Definition white_wins_moves : list (string * string) :=
  [("b1", "c3"); ("a7", "a6"); ("c3", "d5"); ("a6", "a5"); ("d5", "e7")]%string.

(** ** Parsing *)

Lemma bind_Ok {A B} (m : res A) (f : A → res B) (y : B) :
  m ≫= f = Ok y → ∃ x, m = Ok x ∧ f x = Ok y.
Proof. destruct m as [x|e]; simpl; [eauto | discriminate]. Qed.

Lemma bind_Raise {A B} (m : res A) (f : A → res B) (e : exn) :
  m = Raise e → m ≫= f = Raise e.
Proof. by intros ->. Qed.

Lemma int_of_char_Ok d r :
  int_of_char d = Ok r → r = code d - 48 ∧ 0 ≤ r ≤ 9.
Proof.
  unfold int_of_char, code.
  destruct (_ && _) eqn:E; [|discriminate].
  intros [= <-]. apply andb_prop in E as [?%Z.leb_le ?%Z.leb_le]. lia.
Qed.

Lemma int_of_char_digit d :
  48 ≤ code d ≤ 57 → int_of_char d = Ok (code d - 48).
Proof.
  unfold int_of_char, code. intros [H1 H2].
  apply Z.leb_le in H1, H2. by rewrite H1, H2.
Qed.

Lemma list_index_columns_Ok f c :
  list_index f columns = Ok c → c = code f - 97 ∧ 0 ≤ c ≤ 7.
Proof.
  intros H.
  destruct f as [[] [] [] [] [] [] [] []]; vm_compute in H;
    try discriminate; injection H as <-; (split; [reflexivity | lia]).
Qed.

Lemma list_index_columns_letter f :
  97 ≤ code f ≤ 104 → list_index f columns = Ok (code f - 97).
Proof.
  intros [H1%Z.leb_le H2%Z.leb_le]. revert H1 H2.
  destruct f as [[] [] [] [] [] [] [] []]; vm_compute;
    intros; reflexivity || discriminate.
Qed.

Lemma indices_on_board pA pB :
  on_board pA = true → on_board pB = true →
  indices pA pB = Ok (rank_of pA, rank_of pB, file_of pA, file_of pB)
  ∧ 1 ≤ rank_of pA ≤ 8 ∧ 1 ≤ rank_of pB ≤ 8
  ∧ 0 ≤ file_of pA ≤ 7 ∧ 0 ≤ file_of pB ≤ 7.
Proof.
  destruct pA as [|fA [|dA sA]]; try discriminate.
  destruct pB as [|fB [|dB sB]]; try discriminate.
  unfold on_board. rewrite !andb_true_iff, !Z.leb_le.
  intros [[[? ?] ?] ?] [[[? ?] ?] ?].
  unfold indices, rank_of, file_of. cbn [str_index String.get].
  cbn [mbind res_bind].
  rewrite (int_of_char_digit dA), (int_of_char_digit dB) by lia.
  cbn [mbind res_bind].
  rewrite (list_index_columns_letter fA), (list_index_columns_letter fB) by lia.
  cbn [mbind res_bind]. repeat split; lia.
Qed.

(** When the four assignments succeed, the indices are the ones read off
    the characters, and a square is on the board exactly when its row number
    is between 1 and 8. *)
Lemma indices_Ok pA pB rA rB cA cB :
  indices pA pB = Ok (rA, rB, cA, cB) →
  0 ≤ cA ≤ 7 ∧ 0 ≤ cB ≤ 7 ∧
  (on_board pA = true ↔ 1 ≤ rA ≤ 8) ∧ (on_board pB = true ↔ 1 ≤ rB ≤ 8).
Proof.
  unfold indices. intros H.
  destruct pA as [|fA [|dA sA]]; try discriminate.
  destruct pB as [|fB [|dB sB]];
    [cbn in H; destruct (int_of_char dA); discriminate
    |cbn in H; destruct (int_of_char dA); discriminate|].
  cbn [str_index String.get] in H. cbn [mbind res_bind] in H.
  apply bind_Ok in H as (rA' & HrA & H). apply bind_Ok in H as (rB' & HrB & H).
  apply bind_Ok in H as (cA' & HcA & H). apply bind_Ok in H as (cB' & HcB & H).
  injection H as -> -> -> ->.
  apply int_of_char_Ok in HrA as [-> ?], HrB as [-> ?].
  apply list_index_columns_Ok in HcA as [-> ?], HcB as [-> ?].
  unfold on_board. rewrite !andb_true_iff, !Z.leb_le. lia.
Qed.

(** ** Reading and writing cells *)

Lemma wf_board_ok (b : board) : wf_board b = true ↔ board_ok b.
Proof.
  unfold wf_board, board_ok.
  rewrite andb_true_iff, !forallb_forall. split.
  - intros [H1 H2]. split.
    + intros r l Hl.
      specialize (H1 (r, l)). cbn in H1.
      rewrite !andb_true_iff, !Z.leb_le, Nat.eqb_eq in H1.
      apply H1, list_elem_of_In, elem_of_map_to_list, Hl.
    + intros r Hr. eapply bool_decide_eq_true_1, H2, list_elem_of_In, elem_of_seqZ. lia.
  - intros [H1 H2]. split.
    + intros [r l] Hl%list_elem_of_In%elem_of_map_to_list. cbn.
      rewrite !andb_true_iff, !Z.leb_le, Nat.eqb_eq.
      apply H1 in Hl. lia.
    + intros r Hr%list_elem_of_In%elem_of_seqZ.
      apply bool_decide_eq_true_2, H2. lia.
Qed.

Lemma py_index_lookup {A} (l : list A) (c : Z) :
  0 ≤ c < Z.of_nat (length l) →
  ∃ x, l !! Z.to_nat c = Some x ∧ py_index l c = Ok x.
Proof.
  intros Hc. unfold py_index.
  destruct (l !! Z.to_nat c) as [x|] eqn:E.
  - exists x. split; [done|].
    assert ((c <? 0) = false) as -> by lia.
    assert ((c <? 0) || (Z.of_nat (length l) <=? c) = false) as -> by lia.
    by rewrite E.
  - apply lookup_ge_None in E. lia.
Qed.

Lemma board_get_row (b : board) r l c :
  b !! r = Some l → length l = 8%nat → 0 ≤ c ≤ 7 →
  ∃ x, l !! Z.to_nat c = Some x ∧ board_get b r c = Ok x.
Proof.
  intros Hl Hlen Hc. unfold board_get. rewrite Hl.
  apply py_index_lookup. lia.
Qed.

(** Every on-board square of a well-shaped board can be read. *)
Lemma board_get_total (b : board) r c :
  board_ok b → 1 ≤ r ≤ 8 → 0 ≤ c ≤ 7 → ∃ x, board_get b r c = Ok x.
Proof.
  intros [H1 H2] Hr Hc. destruct (H2 r Hr) as [l Hl].
  destruct (H1 r l Hl) as [_ Hlen].
  destruct (board_get_row b r l c Hl Hlen Hc) as (x & _ & ?). eauto.
Qed.

(** A row number outside 1-8 is not a key of the dictionary. *)
Lemma board_get_KeyError (b : board) r c :
  board_ok b → ¬ (1 ≤ r ≤ 8) → board_get b r c = Raise KeyError.
Proof.
  intros [H1 _] Hr. unfold board_get.
  destruct (b !! r) as [l|] eqn:E; [|done].
  apply H1 in E. lia.
Qed.

(** Writing an on-board square succeeds, keeps the shape of the board, and
    changes that square only. *)
Lemma board_set_spec (b : board) r c x :
  board_ok b → 1 ≤ r ≤ 8 → 0 ≤ c ≤ 7 →
  ∃ b', board_set b r c x = Ok b' ∧ board_ok b' ∧
    ∀ r' c', 0 ≤ c' ≤ 7 →
      board_get b' r' c' =
        if bool_decide (r' = r ∧ c' = c) then Ok x else board_get b r' c'.
Proof.
  intros [H1 H2] Hr Hc. destruct (H2 r Hr) as [l Hl].
  destruct (H1 r l Hl) as [_ Hlen].
  unfold board_set. rewrite Hl. unfold py_setitem.
  assert ((c <? 0) = false) as -> by lia.
  assert ((c <? 0) || (Z.of_nat (length l) <=? c) = false) as -> by lia.
  cbn [mbind res_bind]. eexists. split; [done|]. split.
  - split.
    + intros r' l'. rewrite lookup_insert. case_decide as E.
      * intros [= <-]. subst. by rewrite length_insert.
      * apply H1.
    + intros r' Hr'. rewrite lookup_insert. case_decide; [eauto | by apply H2].
  - intros r' c' Hc'. unfold board_get. rewrite lookup_insert.
    case_bool_decide as E.
    + destruct E as [-> ->]. rewrite decide_True by done.
      unfold py_index. rewrite length_insert.
      assert ((c <? 0) = false) as -> by lia.
      assert ((c <? 0) || (Z.of_nat (length l) <=? c) = false) as -> by lia.
      rewrite list_lookup_insert_eq by lia. done.
    + case_decide as E'; [|done]. subst r'. rewrite Hl.
      unfold py_index. rewrite length_insert.
      assert ((c' <? 0) = false) as -> by lia.
      rewrite list_lookup_insert_ne; [done|]. intros ?. apply E. split; [done|lia].
Qed.

(** ** The explosion *)

Lemma get_type_P p : String.eqb (get_type p) "P" = bool_decide (p_letter p = Pawn).
Proof. by destruct p as [c []]. Qed.

Lemma blast_idemp x : blast (blast x) = blast x.
Proof.
  destruct x as [p|]; [|done]. cbn.
  case_bool_decide as E; [|done]. cbn. by rewrite bool_decide_eq_true_2.
Qed.

(** Blasting the cells of one set and then of another blasts their union. *)
Lemma blast_twice (P Q : Prop) `{!Decision P, !Decision Q} x :
  (if bool_decide Q
   then blast (if bool_decide P then blast x else x)
   else if bool_decide P then blast x else x)
  = if bool_decide (P ∨ Q) then blast x else x.
Proof.
  destruct (decide P), (decide Q);
    rewrite ?(bool_decide_eq_true_2 P), ?(bool_decide_eq_false_2 P),
            ?(bool_decide_eq_true_2 Q), ?(bool_decide_eq_false_2 Q) by done;
    rewrite ?blast_idemp;
    [rewrite bool_decide_eq_true_2 by tauto ..
    |rewrite bool_decide_eq_false_2 by tauto]; done.
Qed.

Lemma blast_no_non_pawn x : no_non_pawn (blast x).
Proof.
  unfold no_non_pawn. destruct x as [p|]; cbn; [|intros ? [=]].
  case_bool_decide; intros q [= <-]. done.
Qed.

Lemma off_board_false row column :
  off_board row column = false ↔ 1 ≤ row ≤ 8 ∧ 0 ≤ column ≤ 7.
Proof. unfold off_board. rewrite !orb_false_iff. lia. Qed.

(** Close a goal between closed terms by evaluation. *)
Ltac run := vm_compute; reflexivity.

(** Give the board after a step, leaving its pointwise description. *)
Ltac board_after b := exists b; split; [done | split; [done |]].

(** One iteration of the inner loop clears the cell it visits unless the
    cell is off the board, empty or holds a pawn. *)
Lemma explode_body_spec (b : board) row column :
  board_ok b →
  ∃ b', explode_body row b column = Ok b' ∧ board_ok b' ∧
    ∀ r' c' x, 1 ≤ r' ≤ 8 → 0 ≤ c' ≤ 7 → board_get b r' c' = Ok x →
      board_get b' r' c' =
        Ok (if bool_decide (r' = row ∧ c' = column) then blast x else x).
Proof.
  intros Hb. unfold explode_body.
  destruct (off_board row column) eqn:Hoff.
  - board_after b. intros r' c' x Hr' Hc' Hx.
    rewrite bool_decide_eq_false_2; [done|].
    intros [-> ->]. apply not_true_iff_false in Hoff. apply Hoff.
    unfold off_board. lia.
  - apply off_board_false in Hoff as [Hr Hc].
    destruct (board_get_total b row column Hb Hr Hc) as [x0 Hx0].
    rewrite Hx0. cbn [mbind res_bind].
    destruct x0 as [p|].
    + rewrite get_type_P. case_bool_decide as Hp.
      * board_after b. intros r' c' x Hr' Hc' Hx.
        case_bool_decide as E; [|done]. destruct E as [-> ->].
        rewrite Hx0 in Hx. injection Hx as <-. cbn.
        by rewrite bool_decide_eq_true_2.
      * destruct (board_set_spec b row column None Hb Hr Hc) as (b' & -> & Hb' & Hget).
        board_after b'. intros r' c' x Hr' Hc' Hx.
        rewrite Hget by done. case_bool_decide as E; [|done].
        destruct E as [-> ->]. rewrite Hx0 in Hx. injection Hx as <-. cbn.
        by rewrite bool_decide_eq_false_2.
    + board_after b. intros r' c' x Hr' Hc' Hx.
      case_bool_decide as E; [|done]. destruct E as [-> ->].
      rewrite Hx0 in Hx. by injection Hx as <-.
Qed.

(** The inner loop over the columns of one row. *)
Lemma explode_row_spec row cols : ∀ b : board,
  board_ok b →
  ∃ b', for_each cols b (explode_body row) = Ok b' ∧ board_ok b' ∧
    ∀ r' c' x, 1 ≤ r' ≤ 8 → 0 ≤ c' ≤ 7 → board_get b r' c' = Ok x →
      board_get b' r' c' =
        Ok (if bool_decide (r' = row ∧ c' ∈ cols) then blast x else x).
Proof.
  induction cols as [|c cols IH]; intros b Hb; cbn [for_each].
  - board_after b. intros r' c' x _ _ Hx.
    rewrite bool_decide_eq_false_2; [done|]. intros [_ H]. by apply not_elem_of_nil in H.
  - destruct (explode_body_spec b row c Hb) as (b1 & -> & Hb1 & H1).
    cbn [mbind res_bind].
    destruct (IH b1 Hb1) as (b' & -> & Hb' & H').
    board_after b'. intros r' c' x Hr' Hc' Hx.
    rewrite (H' r' c' _ Hr' Hc' (H1 r' c' x Hr' Hc' Hx)), blast_twice.
    erewrite bool_decide_ext; [reflexivity|]. rewrite elem_of_cons. tauto.
Qed.

(** The two nested loops. *)
Lemma explode_rows_spec rows cols : ∀ b : board,
  board_ok b →
  ∃ b', for_each rows b (λ b row, for_each cols b (explode_body row)) = Ok b'
    ∧ board_ok b' ∧
    ∀ r' c' x, 1 ≤ r' ≤ 8 → 0 ≤ c' ≤ 7 → board_get b r' c' = Ok x →
      board_get b' r' c' =
        Ok (if bool_decide (r' ∈ rows ∧ c' ∈ cols) then blast x else x).
Proof.
  induction rows as [|r rows IH]; intros b Hb; cbn [for_each].
  - board_after b. intros r' c' x _ _ Hx.
    rewrite bool_decide_eq_false_2; [done|]. intros [H _]. by apply not_elem_of_nil in H.
  - destruct (explode_row_spec r cols b Hb) as (b1 & -> & Hb1 & H1).
    cbn [mbind res_bind].
    destruct (IH b1 Hb1) as (b' & -> & Hb' & H').
    board_after b'. intros r' c' x Hr' Hc' Hx.
    rewrite (H' r' c' _ Hr' Hc' (H1 r' c' x Hr' Hc' Hx)), blast_twice.
    erewrite bool_decide_ext; [reflexivity|]. rewrite elem_of_cons. tauto.
Qed.

Lemma explode_spec (b : board) row_B column_B :
  board_ok b →
  ∃ b', explode b row_B column_B = Ok b' ∧ board_ok b' ∧
    ∀ r' c' x, 1 ≤ r' ≤ 8 → 0 ≤ c' ≤ 7 → board_get b r' c' = Ok x →
      board_get b' r' c' =
        Ok (if bool_decide (in_blast row_B column_B r' c') then blast x else x).
Proof.
  intros Hb. unfold explode.
  destruct (explode_rows_spec (py_range (row_B - 1) (row_B + 2))
              (py_range (column_B - 1) (column_B + 2)) b Hb) as (b' & -> & Hb' & H).
  board_after b'. intros r' c' x Hr' Hc' Hx.
  rewrite (H r' c' x Hr' Hc' Hx). unfold py_range, in_blast.
  erewrite bool_decide_ext; [reflexivity|]. rewrite !elem_of_seqZ. lia.
Qed.

(** ** move_piece *)

(** The board after a capture, square by square: the source and the
    destination are cleared, then the neighbourhood of the destination is
    blasted. *)
Lemma move_piece_capture_cells (b : board) pA pB p :
  board_ok b → on_board pA = true → on_board pB = true →
  board_get b (rank_of pB) (file_of pB) = Ok (Some p) →
  ∃ b', move_piece b pA pB = Ok b' ∧ board_ok b' ∧
    ∀ row column x, 1 ≤ row ≤ 8 → 0 ≤ column ≤ 7 →
      board_get b row column = Ok x →
      board_get b' row column =
        Ok (let y := if bool_decide (row = rank_of pA ∧ column = file_of pA)
                     then None
                     else if bool_decide (row = rank_of pB ∧ column = file_of pB)
                          then None else x in
            if bool_decide (in_blast (rank_of pB) (file_of pB) row column)
            then blast y else y).
Proof.
  intros Hb HA HB Hdst.
  destruct (indices_on_board pA pB HA HB) as (Hi & HrA & HrB & HcA & HcB).
  unfold move_piece. rewrite Hi. cbn [mbind res_bind].
  rewrite Hdst. cbn [mbind res_bind is_blank].
  destruct (board_set_spec b (rank_of pA) (file_of pA) None Hb HrA HcA)
    as (b1 & -> & Hb1 & H1). cbn [mbind res_bind].
  destruct (board_set_spec b1 (rank_of pB) (file_of pB) None Hb1 HrB HcB)
    as (b2 & -> & Hb2 & H2). cbn [mbind res_bind].
  destruct (explode_spec b2 (rank_of pB) (file_of pB) Hb2) as (b' & -> & Hb' & H3).
  board_after b'. intros row column x Hrow Hcol Hx. cbn zeta.
  apply H3; [done..|]. rewrite H2, H1, Hx by done.
  destruct (bool_decide (row = rank_of pB ∧ column = file_of pB)),
           (bool_decide (row = rank_of pA ∧ column = file_of pA)); done.
Qed.

(** A move to an empty square copies the mover and clears the source. *)
Lemma move_piece_quiet_ok (b : board) pA pB :
  board_ok b → on_board pA = true → on_board pB = true →
  board_get b (rank_of pB) (file_of pB) = Ok None →
  ∃ b', move_piece b pA pB = Ok b' ∧ board_ok b'.
Proof.
  intros Hb HA HB Hdst.
  destruct (indices_on_board pA pB HA HB) as (Hi & HrA & HrB & HcA & HcB).
  unfold move_piece. rewrite Hi. cbn [mbind res_bind].
  rewrite Hdst. cbn [mbind res_bind is_blank].
  destruct (board_get_total b _ _ Hb HrA HcA) as [xA ->]. cbn [mbind res_bind].
  destruct (board_set_spec b (rank_of pB) (file_of pB) xA Hb HrB HcB)
    as (b1 & -> & Hb1 & _). cbn [mbind res_bind].
  destruct (board_set_spec b1 (rank_of pA) (file_of pA) None Hb1 HrA HcA)
    as (b2 & -> & Hb2 & _). eauto.
Qed.

(** On squares of the board, [move_piece] returns and keeps the shape of
    the board. *)
Lemma move_piece_ok (b : board) pA pB :
  board_ok b → on_board pA = true → on_board pB = true →
  ∃ b', move_piece b pA pB = Ok b' ∧ board_ok b'.
Proof.
  intros Hb HA HB.
  destruct (indices_on_board pA pB HA HB) as (Hi & HrA & HrB & HcA & HcB).
  destruct (board_get_total b _ _ Hb HrB HcB) as [[p|] Hdst].
  - destruct (move_piece_capture_cells b pA pB p) as (b' & ? & ? & _); eauto.
  - by apply move_piece_quiet_ok.
Qed.

(** C5: a capture applied by [move_piece] leaves the source square empty,
    leaves no piece other than a pawn on the destination square and on the
    on-board squares of its 3x3 neighbourhood, leaves every pawn of that
    neighbourhood that is not on the source or the destination where it was,
    and leaves every square outside the source and the neighbourhood as it
    was. *)
Theorem move_piece_capture (b : board) pA pB p :
  wf_board b = true → on_board pA = true → on_board pB = true →
  board_get b (rank_of pB) (file_of pB) = Ok (Some p) →
  ∃ b', move_piece b pA pB = Ok b' ∧ wf_board b' = true ∧
    board_get b' (rank_of pA) (file_of pA) = Ok None ∧
    (∀ row column, 1 ≤ row ≤ 8 → 0 ≤ column ≤ 7 →
       in_blast (rank_of pB) (file_of pB) row column →
       ∃ x, board_get b' row column = Ok x ∧ no_non_pawn x) ∧
    (∀ row column q, 1 ≤ row ≤ 8 → 0 ≤ column ≤ 7 →
       in_blast (rank_of pB) (file_of pB) row column →
       ¬ (row = rank_of pA ∧ column = file_of pA) →
       ¬ (row = rank_of pB ∧ column = file_of pB) →
       p_letter q = Pawn →
       board_get b row column = Ok (Some q) →
       board_get b' row column = Ok (Some q)) ∧
    (∀ row column, 1 ≤ row ≤ 8 → 0 ≤ column ≤ 7 →
       ¬ in_blast (rank_of pB) (file_of pB) row column →
       ¬ (row = rank_of pA ∧ column = file_of pA) →
       board_get b' row column = board_get b row column).
Proof.
  intros Hb%wf_board_ok HA HB Hdst.
  destruct (indices_on_board pA pB HA HB) as (_ & HrA & HrB & HcA & HcB).
  destruct (move_piece_capture_cells b pA pB p Hb HA HB Hdst) as (b' & Hmv & Hb' & H).
  exists b'. split; [done|]. split; [by apply wf_board_ok|].
  split; [|split; [|split]].
  - destruct (board_get_total b _ _ Hb HrA HcA) as [x Hx].
    rewrite (H _ _ x HrA HcA Hx). cbn zeta.
    rewrite (bool_decide_eq_true_2 (_ = _ ∧ _ = _)) by done.
    by destruct (bool_decide (in_blast _ _ _ _)).
  - intros row column Hrow Hcol Hin.
    destruct (board_get_total b _ _ Hb Hrow Hcol) as [x Hx].
    rewrite (H _ _ x Hrow Hcol Hx). cbn zeta.
    rewrite (bool_decide_eq_true_2 (in_blast _ _ _ _)) by done.
    eexists. split; [done|]. apply blast_no_non_pawn.
  - intros row column q Hrow Hcol Hin HnA HnB Hq Hx.
    rewrite (H _ _ _ Hrow Hcol Hx). cbn zeta.
    rewrite (bool_decide_eq_true_2 (in_blast _ _ _ _)) by done.
    rewrite !bool_decide_eq_false_2 by done. cbn.
    by rewrite bool_decide_eq_true_2.
  - intros row column Hrow Hcol Hout HnA.
    destruct (board_get_total b _ _ Hb Hrow Hcol) as [x Hx].
    rewrite (H _ _ x Hrow Hcol Hx), Hx. cbn zeta.
    rewrite (bool_decide_eq_false_2 (in_blast _ _ _ _)) by done.
    rewrite !bool_decide_eq_false_2; [done| |done].
    intros [-> ->]. apply Hout. unfold in_blast. lia.
Qed.

(** ** The king *)

(** C4: on squares of the board the king's rule returns, and it returns
    True exactly when the destination is one square away in one of the eight
    directions and is empty; a move onto an occupied square is refused
    whatever stands there. *)
Theorem king_rule (b : board) pA pB (c : color) :
  wf_board b = true → on_board pA = true → on_board pB = true →
  ∃ r, King.get_movement pA pB c b = Ok r ∧
    (r = true ↔
       one_step (rank_of pA) (file_of pA) (rank_of pB) (file_of pB)
       ∧ board_get b (rank_of pB) (file_of pB) = Ok None).
Proof.
  intros Hb%wf_board_ok HA HB.
  destruct (indices_on_board pA pB HA HB) as (Hi & HrA & HrB & HcA & HcB).
  destruct (board_get_total b _ _ Hb HrB HcB) as [x Hx].
  unfold King.get_movement. rewrite Hi. cbn [mbind res_bind].
  rewrite Hx. cbn [mbind res_bind]. unfold one_step.
  destruct x as [p|]; cbn [is_blank negb].
  - exists false. split; [done|]. split; [intros [=] | intros [_ [=]]].
  - destruct ((rank_of pA =? rank_of pB) && _) eqn:E1.
    { exists true. split; [done|]. split; [|done]. intros _.
      apply andb_prop in E1 as [?%Z.eqb_eq ?%Z.eqb_eq]. split; [lia|done]. }
    destruct ((file_of pA =? file_of pB) && _) eqn:E2.
    { exists true. split; [done|]. split; [|done]. intros _.
      apply andb_prop in E2 as [?%Z.eqb_eq ?%Z.eqb_eq]. split; [lia|done]. }
    destruct ((Z.abs (file_of pA - file_of pB) =? 1) && _) eqn:E3.
    { exists true. split; [done|]. split; [|done]. intros _.
      apply andb_prop in E3 as [?%Z.eqb_eq ?%Z.eqb_eq]. split; [lia|done]. }
    exists false. split; [done|]. split; [intros [=]|]. intros [H _]. exfalso.
    rewrite andb_false_iff, !Z.eqb_neq in E1, E2, E3. lia.
Qed.

(** ** check_king *)

Lemma get_piece_king (c : color) p :
  String.eqb (get_piece p) (get_piece (Piece c King)) = bool_decide (p = Piece c King).
Proof. by destruct p as [[] []], c. Qed.

(** The flag of a colour is raised by a cell holding that colour's king and
    by nothing else. *)
Lemma king_flags_flag (c : color) flags (x : cell) :
  flag_of c (king_flags flags x) = true ↔
  flag_of c flags = true ∨ x = Some (Piece c King).
Proof.
  destruct flags as [w k], c, x as [[[] []]|]; cbn;
    intuition (congruence || discriminate).
Qed.

Lemma scan_row_flag (c : color) (l : list cell) : ∀ flags,
  flag_of c (foldl king_flags flags l) = true ↔
  flag_of c flags = true ∨ Some (Piece c King) ∈ l.
Proof.
  induction l as [|x l IH]; intros flags; cbn [foldl].
  - rewrite elem_of_nil. tauto.
  - rewrite IH, king_flags_flag, elem_of_cons. intuition congruence.
Qed.

Lemma scan_rows_flag (c : color) (entries : list (Z * list cell)) : ∀ flags,
  flag_of c (foldl (λ flags entry, foldl king_flags flags (snd entry))
                   flags entries) = true ↔
  flag_of c flags = true ∨ ∃ entry, entry ∈ entries ∧ Some (Piece c King) ∈ snd entry.
Proof.
  induction entries as [|e entries IH]; intros flags; cbn [foldl].
  - split; [tauto|]. intros [?|(? & H & _)]; [done|]. by apply elem_of_nil in H.
  - rewrite IH, scan_row_flag. split.
    + intros [[?|?]|(e' & ? & ?)]; [by left| |].
      * right. exists e. split; [apply elem_of_cons; by left|done].
      * right. exists e'. split; [apply elem_of_cons; by right|done].
    + intros [?|(e' & [->|?]%elem_of_cons & ?)]; [by left; left|by left; right|].
      right. by exists e'.
Qed.

(** [has_king] finds a king exactly when one stands on a square of the
    board. *)
Lemma has_king_spec (b : board) (c : color) :
  has_king b c = true ↔
  ∃ row column, 1 ≤ row ≤ 8 ∧ 0 ≤ column ≤ 7 ∧
    board_get b row column = Ok (Some (Piece c King)).
Proof.
  unfold has_king. rewrite existsb_exists. split.
  - intros (row & Hrow%list_elem_of_In%elem_of_seqZ & H).
    apply existsb_exists in H as (column & Hcol%list_elem_of_In%elem_of_seqZ & H).
    apply bool_decide_eq_true_1 in H. exists row, column. split; [lia|]. split; [lia|done].
  - intros (row & column & Hrow & Hcol & H). exists row. split.
    + apply list_elem_of_In, elem_of_seqZ. lia.
    + apply existsb_exists. exists column. split.
      * apply list_elem_of_In, elem_of_seqZ. lia.
      * by apply bool_decide_eq_true_2.
Qed.

(** The scan of [check_king] raises a colour's flag exactly when that
    colour's king is on one of the 64 squares. *)
Lemma scan_kings_flag (b : board) (c : color) :
  board_ok b → flag_of c (scan_kings b) = has_king b c.
Proof.
  intros Hb. apply eq_true_iff_eq.
  unfold scan_kings. rewrite scan_rows_flag, has_king_spec. split.
  - intros [H|([r l] & Hl%elem_of_map_to_list & Hk)]; [by destruct c|].
    cbn in Hk. apply list_elem_of_lookup in Hk as [i Hi].
    destruct Hb as [H1 _]. destruct (H1 r l Hl) as [Hr Hlen].
    assert (i < length l)%nat by (eapply lookup_lt_Some; done).
    exists r, (Z.of_nat i). split; [done|]. split; [lia|].
    destruct (board_get_row b r l (Z.of_nat i) Hl Hlen) as (x & Hx & ->); [lia|].
    rewrite Nat2Z.id in Hx. unfold cell in *. congruence.
  - intros (row & column & Hrow & Hcol & Hget). right.
    destruct Hb as [H1 H2]. destruct (H2 row Hrow) as [l Hl].
    destruct (H1 row l Hl) as [_ Hlen].
    destruct (board_get_row b row l column Hl Hlen Hcol) as (x & Hx & Hget').
    exists (row, l). split; [by apply elem_of_map_to_list|]. cbn.
    apply list_elem_of_lookup. exists (Z.to_nat column). unfold cell in *. congruence.
Qed.

Lemma check_king_board g : g_board (check_king g) = g_board g.
Proof.
  unfold check_king. destruct (scan_kings _) as [[] []]; done.
Qed.

Lemma check_king_turn g : turn (check_king g) = turn g.
Proof.
  unfold check_king. destruct (scan_kings _) as [[] []]; done.
Qed.

(** The status after [check_king], from the kings on the board. *)
Lemma check_king_state g :
  wf_board (g_board g) = true →
  game_state (check_king g) =
    match has_king (g_board g) White, has_king (g_board g) Black with
    | false, true => BLACK_WON
    | true, false => WHITE_WON
    | _, _ => game_state g
    end.
Proof.
  intros Hb%wf_board_ok.
  rewrite <- (scan_kings_flag _ White Hb), <- (scan_kings_flag _ Black Hb).
  unfold check_king. destruct (scan_kings _) as [[] []]; done.
Qed.

(** C8: [check_king] looks at all 64 squares; called on an unfinished game
    it sets the status to BLACK_WON exactly when no white king and a black
    king remain, to WHITE_WON exactly when no black king and a white king
    remain, and leaves it UNFINISHED when both remain.  Board and turn are
    not touched. *)
Theorem check_king_status (g : game) :
  wf_board (g_board g) = true → game_state g = UNFINISHED →
  g_board (check_king g) = g_board g ∧ turn (check_king g) = turn g ∧
  (game_state (check_king g) = BLACK_WON ↔
     has_king (g_board g) White = false ∧ has_king (g_board g) Black = true) ∧
  (game_state (check_king g) = WHITE_WON ↔
     has_king (g_board g) Black = false ∧ has_king (g_board g) White = true) ∧
  (has_king (g_board g) White = true ∧ has_king (g_board g) Black = true →
     game_state (check_king g) = UNFINISHED).
Proof.
  intros Hb Hst. split; [apply check_king_board|]. split; [apply check_king_turn|].
  rewrite (check_king_state g Hb), Hst.
  destruct (has_king _ White), (has_king _ Black);
    intuition (congruence || discriminate).
Qed.

(** ** check_move *)

(** A square off the board makes [check_move] raise: the notation does not
    parse, or the row it names is not a key of the dictionary. *)
Lemma check_move_malformed (b : board) pA pB (c : color) :
  board_ok b → on_board pA = false ∨ on_board pB = false →
  raises (check_move b pA pB c).
Proof.
  intros Hb H. unfold check_move.
  destruct (indices pA pB) as [[[[rA rB] cA] cB]|e] eqn:Hi;
    cbn [mbind res_bind]; [|by eexists].
  destruct (indices_Ok _ _ _ _ _ _ Hi) as (_ & _ & HA & HB).
  destruct H as [H|H].
  - rewrite (board_get_KeyError b rA cA Hb); [by eexists|].
    intros ?%HA. congruence.
  - destruct (board_get b rA cA); cbn [mbind res_bind]; [|by eexists].
    rewrite (board_get_KeyError b rB cB Hb); [by eexists|].
    intros ?%HB. congruence.
Qed.

Lemma check_move_Ok_on_board (b : board) pA pB (c : color) r :
  board_ok b → check_move b pA pB c = Ok r →
  on_board pA = true ∧ on_board pB = true.
Proof.
  intros Hb Hr.
  destruct (on_board pA) eqn:HA, (on_board pB) eqn:HB; try done;
    destruct (check_move_malformed b pA pB c Hb) as [e He];
    rewrite ?HA, ?HB; auto; congruence.
Qed.

(** The inner loop of the double-kill test never raises the second flag. *)
Lemma kings_row_dead_black (b : board) row cols : ∀ flags flags',
  for_each cols flags (kings_body b row) = Ok flags' → snd flags' = snd flags.
Proof.
  induction cols as [|c cols IH]; intros flags flags'; cbn [for_each].
  - by intros [= ->].
  - intros (f1 & H1 & H)%bind_Ok. rewrite (IH _ _ H).
    unfold kings_body in H1. destruct flags as [w k].
    destruct (off_board row c); [by injection H1 as <-|].
    apply bind_Ok in H1 as ([p|] & _ & H1); by injection H1 as <-.
Qed.

(** [dead_black] is still False after the two loops, whatever the board. *)
Lemma kings_in_blast_dead_black (b : board) row_B column_B dead_white dead_black :
  kings_in_blast b row_B column_B = Ok (dead_white, dead_black) →
  dead_black = false.
Proof.
  unfold kings_in_blast.
  generalize (py_range (row_B - 1) (row_B + 2)) as rows.
  enough (∀ rows flags flags',
    for_each rows flags (λ flags row,
      for_each (py_range (column_B - 1) (column_B + 2)) flags (kings_body b row))
      = Ok flags' → snd flags' = snd flags) as H.
  { intros rows Hr. by apply H in Hr. }
  induction rows as [|r rows IH]; intros flags flags'; cbn [for_each].
  - by intros [= ->].
  - intros (f1 & H1 & H)%bind_Ok. rewrite (IH _ _ H).
    by apply kings_row_dead_black in H1.
Qed.

(** ** make_move *)

Lemma make_move_body_inv (g : game) pA pB r g' :
  make_move_body g pA pB = Ok (r, g') →
  (r = false ∧ g' = g) ∨
  (r = true ∧ game_state g = UNFINISHED ∧
   check_move (g_board g) pA pB (turn g) = Ok true ∧
   ∃ b', move_piece (g_board g) pA pB = Ok b' ∧ g' = check_king (set_board g b')).
Proof.
  unfold make_move_body. case_bool_decide as Hst; cbn [negb].
  - intros ([] & Hc & H)%bind_Ok; cbn [negb] in H.
    + apply bind_Ok in H as (b' & Hm & [= <- <-]). right. eauto 10.
    + injection H as <- <-. by left.
  - intros [= <- <-]. by left.
Qed.

Lemma make_move_inv (g : game) pA pB r g' :
  make_move g pA pB = Ok (r, g') →
  ∃ g0, make_move_body g pA pB = Ok (r, g0) ∧
    g' = if r then set_turn g0 (other (turn g0)) else g0.
Proof.
  unfold make_move, move_decorator.
  intros ([r0 g0] & Hb & H)%bind_Ok. destruct r0.
  - destruct (turn g0) eqn:Ht; injection H as <- <-;
      exists g0; rewrite Ht; done.
  - injection H as <- <-. by exists g0.
Qed.

(** C6: when [make_move] returns, the turn has passed to the other colour
    if and only if it returned True, and a call that returned False left
    the whole game (board, status and turn) as it was. *)
Theorem make_move_turn (g : game) pA pB r g' :
  make_move g pA pB = Ok (r, g') →
  (turn g' = other (turn g) ↔ r = true) ∧ (r = false → g' = g).
Proof.
  intros (g0 & Hb & ->)%make_move_inv.
  apply make_move_body_inv in Hb
    as [[-> ->]|(-> & _ & _ & b' & _ & ->)].
  - split; [|done]. split; [|done]. by destruct (turn g).
  - split; [|done]. split; [done|]. intros _. cbn. by rewrite check_king_turn.
Qed.

(** C7: once the status is not UNFINISHED every call to [make_move] returns
    False at once, whatever the arguments, and the game is unchanged. *)
Theorem make_move_finished (g : game) pA pB :
  game_state g ≠ UNFINISHED → make_move g pA pB = Ok (false, g).
Proof.
  intros Hst. unfold make_move, move_decorator, make_move_body.
  by rewrite bool_decide_eq_false_2.
Qed.

(** C9 as the code has it, for squares written in Latin-1: while the game
    is unfinished, a move whose source or destination is not a file letter
    a-h followed by a rank digit 1-8 makes [make_move] raise.  (A square
    whose rank is a decimal digit of another script is read by [int] as
    that digit; it is no [string] and the statement does not speak of
    it.) *)
Theorem make_move_malformed (g : game) pA pB :
  wf_board (g_board g) = true → game_state g = UNFINISHED →
  on_board pA = false ∨ on_board pB = false →
  raises (make_move g pA pB).
Proof.
  intros Hb%wf_board_ok Hst H.
  destruct (check_move_malformed (g_board g) pA pB (turn g) Hb H) as [e He].
  exists e. unfold make_move, move_decorator, make_move_body.
  rewrite bool_decide_eq_true_2 by done. cbn [negb]. by rewrite He.
Qed.

(** The board keeps its shape across an accepted move. *)
Lemma make_move_wf (g : game) pA pB r g' :
  wf_board (g_board g) = true → make_move g pA pB = Ok (r, g') →
  wf_board (g_board g') = true.
Proof.
  intros Hb (g0 & Hbody & ->)%make_move_inv.
  apply make_move_body_inv in Hbody
    as [[-> ->]|(-> & _ & Hc & b' & Hm & ->)]; [done|].
  cbn. rewrite check_king_board. cbn. apply wf_board_ok.
  apply wf_board_ok in Hb.
  destruct (check_move_Ok_on_board _ _ _ _ _ Hb Hc) as [HA HB].
  destruct (move_piece_ok _ pA pB Hb HA HB) as (b'' & Hm' & Hok). congruence.
Qed.

(** C10: on a board without a white king and without a black king
    [check_king] changes nothing; in particular, when such a board is what
    an accepted move left behind (a capture whose blast took both kings),
    the status is still UNFINISHED. *)
Theorem no_kings_no_winner (g : game) :
  wf_board (g_board g) = true →
  has_king (g_board g) White = false → has_king (g_board g) Black = false →
  check_king g = g ∧
  ∀ (g0 : game) pA pB, make_move g0 pA pB = Ok (true, g) → game_state g = UNFINISHED.
Proof.
  assert (∀ g : game,
     wf_board (g_board g) = true →
     has_king (g_board g) White = false → has_king (g_board g) Black = false →
     check_king g = g) as Hfirst.
  { clear g. intros g Hb%wf_board_ok HW HB. unfold check_king.
    pose proof (scan_kings_flag _ White Hb) as H1.
    pose proof (scan_kings_flag _ Black Hb) as H2.
    rewrite HW in H1. rewrite HB in H2.
    destruct (scan_kings _) as [w k]. cbn in H1, H2. by subst. }
  intros Hb HW HB. split; [by apply Hfirst|].
  intros g0 pA pB (g1 & Hbody & ->)%make_move_inv.
  apply make_move_body_inv in Hbody
    as [[[=] _]|(_ & Hst & _ & b' & _ & ->)].
  cbn in *. rewrite check_king_board in *. cbn in *.
  rewrite (Hfirst (set_board g0 b')); done.
Qed.

(** ** The queen against the rook and the bishop *)

(** What the rook's rule accepts the queen's rule accepts. *)
Lemma queen_accepts_rook_moves pA pB (c : color) (b : board) :
  Rook.get_movement pA pB c b = Ok true → Queen.get_movement pA pB c b = Ok true.
Proof.
  unfold Rook.get_movement, Queen.get_movement.
  destruct (indices pA pB) as [[[[rA rB] cA] cB]|e]; cbn [mbind res_bind]; [|done].
  destruct ((rA =? rB) && (cA <? cB)); [done|].
  destruct ((rA =? rB) && (cA >? cB)); [done|].
  destruct ((cA =? cB) && (rA <? rB)); [done|].
  destruct ((cA =? cB) && (rA >? rB)); [done|].
  intros [=].
Qed.

(** What the bishop's rule accepts the queen's rule accepts. *)
Lemma queen_accepts_bishop_moves pA pB (c : color) (b : board) :
  Bishop.get_movement pA pB c b = Ok true → Queen.get_movement pA pB c b = Ok true.
Proof.
  unfold Bishop.get_movement, Queen.get_movement.
  destruct (indices pA pB) as [[[[rA rB] cA] cB]|e]; cbn [mbind res_bind]; [|done].
  destruct ((rA =? rB) || (cA =? cB)) eqn:E; [intros [=]|].
  apply orb_false_elim in E as [-> ->]. cbn [andb].
  destruct (negb _); [intros [=]|]. done.
Qed.

(** C1, where the code departs from the claim.  After 1. e2-e4 a7-a6 the
    queen's rule accepts d1-e3, one file and two ranks away: the diagonal
    branch "up and right" is entered without the test |delta row| =
    |delta column| that the bishop makes, finds e2 empty and returns True.
    The rook's rule and the bishop's rule both refuse the move, and
    [make_move] plays it. *)
Theorem queen_accepts_crooked_move :
  let g := game_after queen_moves in
  play new_game queen_moves = Ok ([true; true], g) ∧
  board_get (g_board g) 1 3 = Ok (Some (Piece White Queen)) ∧
  Z.abs (rank_of "d1" - rank_of "e3") ≠ Z.abs (file_of "d1" - file_of "e3") ∧
  rank_of "d1" ≠ rank_of "e3" ∧ file_of "d1" ≠ file_of "e3" ∧
  Queen.get_movement "d1" "e3" White (g_board g) = Ok true ∧
  Rook.get_movement "d1" "e3" White (g_board g) = Ok false ∧
  Bishop.get_movement "d1" "e3" White (g_board g) = Ok false ∧
  make_move g "d1" "e3" = Ok (true, game_after (queen_moves ++ [("d1", "e3")%string])) ∧
  board_get (g_board (game_after (queen_moves ++ [("d1", "e3")%string]))) 3 4
    = Ok (Some (Piece White Queen)).
Proof.
  cbv zeta. do 2 (split; [run|]). do 3 (split; [vm_compute; congruence|]).
  repeat (split; [run|]). run.
Qed.

(** ** The pawn on its home rank *)

(** On the home rank with source and destination in one file the pawn's
    rule never reads the board: neither the destination nor the square
    passed over by a two-square advance is looked at. *)
Lemma pawn_home_rank_ignores_board pA pB (c : color) (b b' : board) rB column :
  indices pA pB = Ok (match c with White => 2 | Black => 7 end, rB, column, column) →
  Pawn.get_movement pA pB c b = Pawn.get_movement pA pB c b'.
Proof.
  intros Hi. unfold Pawn.get_movement. rewrite Hi. cbn [mbind res_bind].
  destruct c; rewrite Z.eqb_refl; cbn [andb]; by rewrite Z.eqb_refl.
Qed.

(** C3, where the code departs from the claim.  A black knight reaches e3;
    the pawn's rule then accepts e2-e3 straight onto the knight, and
    [make_move] plays it as a capture.  The two-square advance e2-e4 over
    the knight is accepted as well. *)
Theorem pawn_advances_onto_piece :
  let g := game_after knight_moves in
  play new_game knight_moves = Ok (replicate 6 true, g) ∧
  board_get (g_board g) 2 4 = Ok (Some (Piece White Pawn)) ∧
  board_get (g_board g) 3 4 = Ok (Some (Piece Black Knight)) ∧
  Pawn.get_movement "e2" "e3" White (g_board g) = Ok true ∧
  Pawn.get_movement "e2" "e4" White (g_board g) = Ok true ∧
  make_move g "e2" "e3" = Ok (true, game_after (knight_moves ++ [("e2", "e3")%string])) ∧
  board_get (g_board (game_after (knight_moves ++ [("e2", "e3")%string]))) 3 4 = Ok None.
Proof.
  cbv zeta. repeat (split; [run|]). run.
Qed.

(** ** The double-kill test *)

(** C2, where the code departs from the claim.  White king on f4, black
    king on e6, black pawn on e5, white knight on f3: both kings stand in
    the 3x3 neighbourhood of e5, the knight's rule accepts f3-e5, and
    [check_move] returns True.  [make_move] plays the capture and both
    kings are gone. *)
Theorem check_move_accepts_double_kill :
  let g := game_after two_kings_moves in
  play new_game two_kings_moves = Ok (replicate 10 true, g) ∧
  board_get (g_board g) 4 5 = Ok (Some (Piece White King)) ∧
  board_get (g_board g) 6 4 = Ok (Some (Piece Black King)) ∧
  in_blast (rank_of "e5") (file_of "e5") 4 5 ∧
  in_blast (rank_of "e5") (file_of "e5") 6 4 ∧
  get_movement (Piece White Knight) "f3" "e5" White (g_board g) = Ok true ∧
  check_move (g_board g) "f3" "e5" White = Ok true ∧
  make_move g "f3" "e5" = Ok (true, game_after (two_kings_moves ++ [("f3", "e5")%string])) ∧
  has_king (g_board (game_after (two_kings_moves ++ [("f3", "e5")%string]))) White = false ∧
  has_king (g_board (game_after (two_kings_moves ++ [("f3", "e5")%string]))) Black = false.
Proof.
  cbv zeta. do 3 (split; [run|]).
  do 2 (split; [unfold in_blast; vm_compute; intuition discriminate|]).
  repeat (split; [run|]). run.
Qed.

(** ** Malformed notation on a finished game *)

(** C9 fails as stated: after 1. Nb1-c3 a7-a6 2. Nc3-d5 a6-a5 3. Nd5xe7
    the blast has removed the black king and White has won; a further call
    with the malformed square "z9" does not raise, it returns False. *)
Lemma make_move_malformed_finished :
  let g := game_after white_wins_moves in
  play new_game white_wins_moves = Ok (replicate 5 true, g) ∧
  game_state g = WHITE_WON ∧
  on_board "z9" = false ∧
  make_move g "z9" "a1" = Ok (false, g) ∧
  ¬ raises (make_move g "z9" "a1").
Proof.
  cbv zeta. repeat (split; [run|]).
  assert (make_move (game_after white_wins_moves) "z9" "a1"
          = Ok (false, game_after white_wins_moves)) as H by run.
  intros [e He]. rewrite H in He. discriminate.
Qed.

(** ** The theorems at concrete positions *)

Lemma king_rule_witness :
  wf_board initial_board = true ∧ on_board "e1" = true ∧ on_board "e2" = true ∧
  ∃ r, King.get_movement "e1" "e2" White initial_board = Ok r ∧
    (r = true ↔
       one_step (rank_of "e1") (file_of "e1") (rank_of "e2") (file_of "e2")
       ∧ board_get initial_board (rank_of "e2") (file_of "e2") = Ok None).
Proof.
  do 3 (split; [run|]). apply king_rule; run.
Defined.

Lemma move_piece_capture_witness :
  let b := g_board (game_after two_kings_moves) in
  wf_board b = true ∧ on_board "f3" = true ∧ on_board "e5" = true ∧
  board_get b (rank_of "e5") (file_of "e5") = Ok (Some (Piece Black Pawn)) ∧
  ∃ b', move_piece b "f3" "e5" = Ok b' ∧ wf_board b' = true ∧
    board_get b' (rank_of "f3") (file_of "f3") = Ok None.
Proof.
  cbv zeta. do 4 (split; [run|]).
  destruct (move_piece_capture (g_board (game_after two_kings_moves))
              "f3" "e5" (Piece Black Pawn)) as (b' & H1 & H2 & H3 & _);
    [run..|].
  exists b'. auto.
Defined.

Lemma make_move_turn_witness :
  make_move new_game "e2" "e4" = Ok (true, game_after [("e2", "e4")%string]) ∧
  (turn (game_after [("e2", "e4")%string]) = other (turn new_game) ↔ true = true) ∧
  (true = false → game_after [("e2", "e4")%string] = new_game).
Proof.
  split; [run|]. apply (make_move_turn new_game "e2" "e4"). run.
Defined.

Lemma make_move_finished_witness :
  game_state (game_after white_wins_moves) ≠ UNFINISHED ∧
  make_move (game_after white_wins_moves) "e2" "e4"
    = Ok (false, game_after white_wins_moves).
Proof.
  assert (game_state (game_after white_wins_moves) = WHITE_WON) as H by run.
  assert (game_state (game_after white_wins_moves) ≠ UNFINISHED) as H'
    by (rewrite H; discriminate).
  split; [exact H'|]. apply make_move_finished, H'.
Defined.

Lemma check_king_status_witness :
  let g := set_board new_game (g_board (game_after white_wins_moves)) in
  wf_board (g_board g) = true ∧ game_state g = UNFINISHED ∧
  has_king (g_board g) Black = false ∧ has_king (g_board g) White = true ∧
  game_state (check_king g) = WHITE_WON.
Proof.
  cbv zeta. do 2 (split; [run|]).
  assert (has_king (g_board (set_board new_game
            (g_board (game_after white_wins_moves)))) Black = false) as HB by run.
  assert (has_king (g_board (set_board new_game
            (g_board (game_after white_wins_moves)))) White = true) as HW by run.
  do 2 (split; [done|]).
  destruct (check_king_status (set_board new_game
              (g_board (game_after white_wins_moves)))) as (_ & _ & _ & H & _);
    [run..|].
  apply H. by split.
Defined.

Lemma make_move_malformed_witness :
  wf_board (g_board new_game) = true ∧ game_state new_game = UNFINISHED ∧
  on_board "z9" = false ∧ raises (make_move new_game "z9" "a1").
Proof.
  do 3 (split; [run|]). apply make_move_malformed; [run..|]. left. run.
Defined.

Lemma no_kings_no_winner_witness :
  let g0 := game_after two_kings_moves in
  let g := game_after (two_kings_moves ++ [("f3", "e5")%string]) in
  wf_board (g_board g) = true ∧
  has_king (g_board g) White = false ∧ has_king (g_board g) Black = false ∧
  make_move g0 "f3" "e5" = Ok (true, g) ∧
  check_king g = g ∧ game_state g = UNFINISHED.
Proof.
  cbv zeta. do 4 (split; [run|]).
  destruct (no_kings_no_winner
              (game_after (two_kings_moves ++ [("f3", "e5")%string])))
    as [H1 H2]; [run..|].
  split; [exact H1|].
  apply (H2 (game_after two_kings_moves) "f3"%string "e5"%string). run.
Defined.

(** ** Knight, rook and bishop *)

(** X1: the knight's rule never reads the board: whenever the squares parse it
    returns, and it returns True exactly for the eight L-shaped jumps. *)
Theorem knight_rule pA pB (c : color) (b : board) rA rB cA cB :
  indices pA pB = Ok (rA, rB, cA, cB) →
  ∃ r, Knight.get_movement pA pB c b = Ok r ∧
    (r = true ↔
       (Z.abs (rA - rB) = 2 ∧ Z.abs (cA - cB) = 1)
       ∨ (Z.abs (rA - rB) = 1 ∧ Z.abs (cA - cB) = 2)).
Proof.
  intros Hi. unfold Knight.get_movement. rewrite Hi. cbn [mbind res_bind].
  destruct ((Z.abs (rA - rB) =? 2) && _) eqn:E1.
  { exists true. split; [done|]. split; [|done]. intros _. left.
    apply andb_prop in E1 as [?%Z.eqb_eq ?%Z.eqb_eq]. done. }
  destruct ((Z.abs (cA - cB) =? 2) && _) eqn:E2.
  { exists true. split; [done|]. split; [|done]. intros _. right.
    apply andb_prop in E2 as [?%Z.eqb_eq ?%Z.eqb_eq]. done. }
  exists false. split; [done|]. split; [intros [=]|]. intros H. exfalso.
  rewrite andb_false_iff, !Z.eqb_neq in E1, E2. lia.
Qed.

(** The loop along a row returns True exactly when every cell it visits is
    empty, as long as the cells are on the board. *)
Lemma scan_columns_spec (b : board) row cols :
  board_ok b → 1 ≤ row ≤ 8 → (∀ c, c ∈ cols → 0 ≤ c ≤ 7) →
  ∃ r, scan_columns b row cols = Ok r ∧
    (r = true ↔ ∀ c, c ∈ cols → board_get b row c = Ok None).
Proof.
  intros Hb Hrow. induction cols as [|c cols IH]; intros Hcols; cbn [scan_columns].
  - exists true. split; [done|]. split; [|done]. intros _ c H. by apply elem_of_nil in H.
  - destruct (board_get_total b row c Hb Hrow) as [x Hx].
    { apply Hcols, elem_of_cons. by left. }
    rewrite Hx. cbn [mbind res_bind]. destruct x as [p|]; cbn [is_blank].
    + exists false. split; [done|]. split; [intros [=]|]. intros H.
      specialize (H c). rewrite Hx in H. discriminate H. apply elem_of_cons. by left.
    + destruct IH as (r & -> & Hr).
      { intros c' Hc'. apply Hcols, elem_of_cons. by right. }
      exists r. split; [done|]. rewrite Hr. split.
      * intros H c' [->|?]%elem_of_cons; [done|by apply H].
      * intros H c' Hc'. apply H, elem_of_cons. by right.
Qed.

(** The same for the loop along a file. *)
Lemma scan_rows_spec (b : board) rows column :
  board_ok b → 0 ≤ column ≤ 7 → (∀ r, r ∈ rows → 1 ≤ r ≤ 8) →
  ∃ r, scan_rows b rows column = Ok r ∧
    (r = true ↔ ∀ row, row ∈ rows → board_get b row column = Ok None).
Proof.
  intros Hb Hcol. induction rows as [|r0 rows IH]; intros Hrows; cbn [scan_rows].
  - exists true. split; [done|]. split; [|done]. intros _ c H. by apply elem_of_nil in H.
  - destruct (board_get_total b r0 column Hb) as [x Hx]; [|done|].
    { apply Hrows, elem_of_cons. by left. }
    rewrite Hx. cbn [mbind res_bind]. destruct x as [p|]; cbn [is_blank].
    + exists false. split; [done|]. split; [intros [=]|]. intros H.
      specialize (H r0). rewrite Hx in H. discriminate H. apply elem_of_cons. by left.
    + destruct IH as (r & -> & Hr).
      { intros c' Hc'. apply Hrows, elem_of_cons. by right. }
      exists r. split; [done|]. rewrite Hr. split.
      * intros H c' [->|?]%elem_of_cons; [done|by apply H].
      * intros H c' Hc'. apply H, elem_of_cons. by right.
Qed.

(** X2: the rook's rule on squares of the board: it returns, and it returns
    True exactly when source and destination differ, share a rank or a
    file, and every square strictly between them is empty.  The destination
    itself is not looked at. *)
Theorem rook_rule (b : board) pA pB (c : color) :
  wf_board b = true → on_board pA = true → on_board pB = true →
  ∃ r, Rook.get_movement pA pB c b = Ok r ∧
    (r = true ↔
       (rank_of pA = rank_of pB ∧ file_of pA ≠ file_of pB ∧
        ∀ column, Z.min (file_of pA) (file_of pB) < column
                  < Z.max (file_of pA) (file_of pB) →
          board_get b (rank_of pA) column = Ok None)
       ∨
       (file_of pA = file_of pB ∧ rank_of pA ≠ rank_of pB ∧
        ∀ row, Z.min (rank_of pA) (rank_of pB) < row
               < Z.max (rank_of pA) (rank_of pB) →
          board_get b row (file_of pA) = Ok None)).
Proof.
  intros Hb%wf_board_ok HA HB.
  destruct (indices_on_board pA pB HA HB) as (Hi & HrA & HrB & HcA & HcB).
  unfold Rook.get_movement. rewrite Hi. cbn [mbind res_bind].
  set (rA := rank_of pA) in *. set (rB := rank_of pB) in *.
  set (cA := file_of pA) in *. set (cB := file_of pB) in *.
  destruct ((rA =? rB) && (cA <? cB)) eqn:E1.
  { apply andb_prop in E1 as [E1%Z.eqb_eq E1'%Z.ltb_lt].
    destruct (scan_columns_spec b rA (py_range (cA + 1) cB) Hb HrA)
      as (r & -> & Hr).
    { intros c' Hc'%elem_of_seqZ. lia. }
    exists r. split; [done|]. rewrite Hr. unfold py_range. split.
    - intros H. left. split; [done|]. split; [lia|]. intros c' Hc'.
      apply H, elem_of_seqZ. lia.
    - intros [(_ & _ & H)|(? & _)]; [|lia]. intros c' Hc'%elem_of_seqZ. apply H. lia. }
  destruct ((rA =? rB) && (cA >? cB)) eqn:E2.
  { apply andb_prop in E2 as [E2%Z.eqb_eq E2'%Z.gtb_lt].
    destruct (scan_columns_spec b rA (py_range (cB + 1) cA) Hb HrA)
      as (r & -> & Hr).
    { intros c' Hc'%elem_of_seqZ. lia. }
    exists r. split; [done|]. rewrite Hr. unfold py_range. split.
    - intros H. left. split; [done|]. split; [lia|]. intros c' Hc'.
      apply H, elem_of_seqZ. lia.
    - intros [(_ & _ & H)|(? & _)]; [|lia]. intros c' Hc'%elem_of_seqZ. apply H. lia. }
  destruct ((cA =? cB) && (rA <? rB)) eqn:E3.
  { apply andb_prop in E3 as [E3%Z.eqb_eq E3'%Z.ltb_lt].
    destruct (scan_rows_spec b (py_range (rA + 1) rB) cA Hb HcA)
      as (r & -> & Hr).
    { intros c' Hc'%elem_of_seqZ. lia. }
    exists r. split; [done|]. rewrite Hr. unfold py_range. split.
    - intros H. right. split; [done|]. split; [lia|]. intros c' Hc'.
      apply H, elem_of_seqZ. lia.
    - intros [(? & _)|(_ & _ & H)]; [lia|]. intros c' Hc'%elem_of_seqZ. apply H. lia. }
  destruct ((cA =? cB) && (rA >? rB)) eqn:E4.
  { apply andb_prop in E4 as [E4%Z.eqb_eq E4'%Z.gtb_lt].
    destruct (scan_rows_spec b (py_range (rB + 1) rA) cA Hb HcA)
      as (r & -> & Hr).
    { intros c' Hc'%elem_of_seqZ. lia. }
    exists r. split; [done|]. rewrite Hr. unfold py_range. split.
    - intros H. right. split; [done|]. split; [lia|]. intros c' Hc'.
      apply H, elem_of_seqZ. lia.
    - intros [(? & _)|(_ & _ & H)]; [lia|]. intros c' Hc'%elem_of_seqZ. apply H. lia. }
  exists false. split; [done|]. split; [intros [=]|]. intros H. exfalso.
  rewrite andb_false_iff, Z.eqb_neq in E1, E2, E3, E4.
  rewrite Z.ltb_ge in E1, E3. rewrite Z.gtb_ltb, Z.ltb_ge in E2, E4. lia.
Qed.

(** The diagonal loop over [range(r0, r1)], the column starting at [c0] and
    stepping by 1 or -1: it returns True exactly when every cell it visits
    is empty, as long as the cells are on the board. *)
Lemma scan_diagonal_spec (b : board) step : ∀ rows column,
  board_ok b → step = 1 ∨ step = -1 →
  (∀ i row, rows !! i = Some row →
     1 ≤ row ≤ 8 ∧ 0 ≤ column + step * Z.of_nat i ≤ 7) →
  ∃ r, scan_diagonal b rows column step = Ok r ∧
    (r = true ↔ ∀ i row, rows !! i = Some row →
       board_get b row (column + step * Z.of_nat i) = Ok None).
Proof.
  induction rows as [|r0 rows IH]; intros column Hb Hs Hin; cbn [scan_diagonal].
  - exists true. split; [done|]. split; [|done]. intros _ i row H. done.
  - destruct (Hin 0%nat r0 eq_refl) as [Hr0 Hc0].
    replace (column + step * Z.of_nat 0) with column in Hc0 by lia.
    destruct (board_get_total b r0 column Hb Hr0 Hc0) as [x Hx].
    rewrite Hx. cbn [mbind res_bind]. destruct x as [p|]; cbn [is_blank].
    + exists false. split; [done|]. split; [intros [=]|]. intros H.
      specialize (H 0%nat r0 eq_refl).
      replace (column + step * Z.of_nat 0) with column in H by lia.
      rewrite Hx in H. discriminate H.
    + destruct (IH (column + step) Hb Hs) as (r & -> & Hr).
      { intros i row Hi. specialize (Hin (S i) row Hi).
        replace (column + step + step * Z.of_nat i)
          with (column + step * Z.of_nat (S i)) by lia. done. }
      exists r. split; [done|]. rewrite Hr. split.
      * intros H [|i] row Hi.
        -- injection Hi as <-.
           replace (column + step * Z.of_nat 0) with column by lia. done.
        -- specialize (H i row Hi).
           replace (column + step * Z.of_nat (S i))
             with (column + step + step * Z.of_nat i) by lia. done.
      * intros H i row Hi. specialize (H (S i) row Hi).
        replace (column + step + step * Z.of_nat i)
          with (column + step * Z.of_nat (S i)) by lia. done.
Qed.

Lemma scan_diagonal_range (b : board) r0 r1 c0 step :
  board_ok b → step = 1 ∨ step = -1 →
  (∀ j, 0 ≤ j < r1 - r0 → 1 ≤ r0 + j ≤ 8 ∧ 0 ≤ c0 + step * j ≤ 7) →
  ∃ r, scan_diagonal b (py_range r0 r1) c0 step = Ok r ∧
    (r = true ↔ ∀ j, 0 ≤ j < r1 - r0 →
       board_get b (r0 + j) (c0 + step * j) = Ok None).
Proof.
  intros Hb Hs Hin. unfold py_range.
  destruct (scan_diagonal_spec b step (seqZ r0 (r1 - r0)) c0 Hb Hs) as (r & Hr & Hiff).
  { intros i row [-> Hi]%lookup_seqZ. apply Hin. lia. }
  exists r. split; [done|]. rewrite Hiff. split.
  - intros H j Hj. specialize (H (Z.to_nat j) (r0 + j)).
    rewrite Z2Nat.id in H by lia. apply H, lookup_seqZ. lia.
  - intros H i row [-> Hi]%lookup_seqZ. apply H. lia.
Qed.

(** X3: the bishop's rule on squares of the board: it returns, and it returns
    True exactly when the destination lies on a diagonal of the source
    (|delta row| = |delta column|, not zero) and every square strictly
    between them on that diagonal is empty. *)
Theorem bishop_rule (b : board) pA pB (c : color) :
  wf_board b = true → on_board pA = true → on_board pB = true →
  ∃ r, Bishop.get_movement pA pB c b = Ok r ∧
    (r = true ↔
       Z.abs (rank_of pA - rank_of pB) = Z.abs (file_of pA - file_of pB)
       ∧ rank_of pA ≠ rank_of pB
       ∧ ∀ k, 0 < k < Z.abs (rank_of pB - rank_of pA) →
           board_get b (rank_of pA + k * Z.sgn (rank_of pB - rank_of pA))
                       (file_of pA + k * Z.sgn (file_of pB - file_of pA))
           = Ok None).
Proof.
  intros Hb%wf_board_ok HA HB.
  destruct (indices_on_board pA pB HA HB) as (Hi & HrA & HrB & HcA & HcB).
  unfold Bishop.get_movement. rewrite Hi. cbn [mbind res_bind].
  set (rA := rank_of pA) in *. set (rB := rank_of pB) in *.
  set (cA := file_of pA) in *. set (cB := file_of pB) in *.
  destruct ((rA =? rB) || (cA =? cB)) eqn:E0.
  { exists false. split; [done|]. split; [intros [=]|]. intros (? & ? & _). exfalso.
    apply orb_prop in E0 as [?%Z.eqb_eq|?%Z.eqb_eq]; lia. }
  apply orb_false_elim in E0 as [E0%Z.eqb_neq E0'%Z.eqb_neq].
  destruct (Z.abs (rA - rB) =? Z.abs (cA - cB)) eqn:Ed; cbn [negb];
    [apply Z.eqb_eq in Ed|apply Z.eqb_neq in Ed].
  2: { exists false. split; [done|]. split; [intros [=]|]. by intros (? & _). }
  destruct ((rA <? rB) && (cA <? cB)) eqn:E1.
  { apply andb_prop in E1 as [?%Z.ltb_lt ?%Z.ltb_lt].
    destruct (scan_diagonal_range b (rA + 1) rB (cA + 1) 1 Hb) as (r & -> & Hr);
      [by left|intros; lia|].
    exists r. split; [done|]. rewrite Hr.
    rewrite (Z.sgn_pos (rB - rA)), (Z.sgn_pos (cB - cA)) by lia. split.
    - intros Hall. do 2 (split; [done|]). intros k Hk.
      rewrite <- (Hall (k - 1)) by lia. f_equal; lia.
    - intros (_ & _ & Hall) j Hj. rewrite <- (Hall (j + 1)) by lia. f_equal; lia. }
  destruct ((rA <? rB) && (cA >? cB)) eqn:E2.
  { apply andb_prop in E2 as [?%Z.ltb_lt ?%Z.gtb_lt].
    destruct (scan_diagonal_range b (rA + 1) rB (cA - 1) (-1) Hb) as (r & -> & Hr);
      [by right|intros; lia|].
    exists r. split; [done|]. rewrite Hr.
    rewrite (Z.sgn_pos (rB - rA)), (Z.sgn_neg (cB - cA)) by lia. split.
    - intros Hall. do 2 (split; [done|]). intros k Hk.
      rewrite <- (Hall (k - 1)) by lia. f_equal; lia.
    - intros (_ & _ & Hall) j Hj. rewrite <- (Hall (j + 1)) by lia. f_equal; lia. }
  destruct ((rA >? rB) && (cA <? cB)) eqn:E3.
  { apply andb_prop in E3 as [?%Z.gtb_lt ?%Z.ltb_lt].
    destruct (scan_diagonal_range b (rB + 1) rA (cB - 1) (-1) Hb) as (r & -> & Hr);
      [by right|intros; lia|].
    exists r. split; [done|]. rewrite Hr.
    rewrite (Z.sgn_neg (rB - rA)), (Z.sgn_pos (cB - cA)) by lia. split.
    - intros Hall. do 2 (split; [done|]). intros k Hk.
      rewrite <- (Hall (rA - rB - 1 - k)) by lia. f_equal; lia.
    - intros (_ & _ & Hall) j Hj. rewrite <- (Hall (rA - rB - 1 - j)) by lia. f_equal; lia. }
  destruct ((rA >? rB) && (cA >? cB)) eqn:E4.
  { apply andb_prop in E4 as [?%Z.gtb_lt ?%Z.gtb_lt].
    destruct (scan_diagonal_range b (rB + 1) rA (cB + 1) 1 Hb) as (r & -> & Hr);
      [by left|intros; lia|].
    exists r. split; [done|]. rewrite Hr.
    rewrite (Z.sgn_neg (rB - rA)), (Z.sgn_neg (cB - cA)) by lia. split.
    - intros Hall. do 2 (split; [done|]). intros k Hk.
      rewrite <- (Hall (rA - rB - 1 - k)) by lia. f_equal; lia.
    - intros (_ & _ & Hall) j Hj. rewrite <- (Hall (rA - rB - 1 - j)) by lia. f_equal; lia. }
  exfalso. lia.
Qed.

(** ** Where the queen does follow the rook and the bishop *)

(** X4: between squares on one rank or one file the queen's rule is the rook's,
    and between squares on an exact diagonal it is the bishop's, result and
    exceptions included. *)
Theorem queen_on_lines pA pB (c : color) (b : board) rA rB cA cB :
  indices pA pB = Ok (rA, rB, cA, cB) →
  (rA = rB ∨ cA = cB →
     Queen.get_movement pA pB c b = Rook.get_movement pA pB c b)
  ∧ (Z.abs (rA - rB) = Z.abs (cA - cB) →
     Queen.get_movement pA pB c b = Bishop.get_movement pA pB c b).
Proof.
  intros Hi. unfold Queen.get_movement, Rook.get_movement, Bishop.get_movement.
  rewrite Hi. cbn [mbind res_bind]. split; intros H.
  - destruct ((rA =? rB) && (cA <? cB)) eqn:E1; [done|].
    destruct ((rA =? rB) && (cA >? cB)) eqn:E2; [done|].
    destruct ((cA =? cB) && (rA <? rB)) eqn:E3; [done|].
    destruct ((cA =? cB) && (rA >? rB)) eqn:E4; [done|].
    assert (rA = rB ∧ cA = cB) as [-> ->] by lia.
    rewrite !Z.ltb_irrefl, !Z.gtb_ltb, !Z.ltb_irrefl. done.
  - destruct ((rA =? rB) || (cA =? cB)) eqn:E0.
    + assert (rA = rB ∧ cA = cB) as [-> ->] by lia.
      rewrite !Z.ltb_irrefl, !Z.gtb_ltb, !Z.ltb_irrefl, !andb_false_r. done.
    + apply orb_false_elim in E0 as [-> ->]. cbn [andb].
      apply Z.eqb_eq in H. rewrite H. done.
Qed.

(** ** The pawn *)

(** X5: the pawn's rule on squares of the board: it returns, and it accepts
    three kinds of move only.  One rank forward in the same file, when the
    pawn is on its home rank or the destination is empty; two ranks forward
    in the same file from the home rank; one rank forward and one file
    sideways onto an occupied square. *)
Theorem pawn_rule (b : board) pA pB (c : color) :
  wf_board b = true → on_board pA = true → on_board pB = true →
  ∃ r x, Pawn.get_movement pA pB c b = Ok r ∧
    board_get b (rank_of pB) (file_of pB) = Ok x ∧
    (r = true ↔
       (file_of pA = file_of pB ∧ advance c (rank_of pA) (rank_of pB) = 1
        ∧ (rank_of pA = home_rank c ∨ x = None))
       ∨ (file_of pA = file_of pB ∧ advance c (rank_of pA) (rank_of pB) = 2
          ∧ rank_of pA = home_rank c)
       ∨ (Z.abs (file_of pA - file_of pB) = 1
          ∧ advance c (rank_of pA) (rank_of pB) = 1 ∧ x ≠ None)).
Proof.
  intros Hb%wf_board_ok HA HB.
  destruct (indices_on_board pA pB HA HB) as (Hi & HrA & HrB & HcA & HcB).
  destruct (board_get_total b _ _ Hb HrB HcB) as [x Hx].
  unfold Pawn.get_movement. rewrite Hi. cbn [mbind res_bind].
  set (rA := rank_of pA) in *. set (rB := rank_of pB) in *.
  set (cA := file_of pA) in *. set (cB := file_of pB) in *.
  rewrite Hx. cbn [mbind res_bind].
  destruct c; unfold advance, home_rank.
  - destruct ((rA =? 2) && (cA =? cB)) eqn:E1.
    { eexists _, x. split; [done|]. split; [done|].
      rewrite orb_true_iff, !Z.eqb_eq. lia. }
    destruct x as [p|]; cbn [is_blank negb andb].
    + destruct (rB - rA =? 1) eqn:E2.
      * eexists _, _. split; [done|]. split; [done|]. rewrite Z.eqb_eq.
        split; [intros ?; right; right; split; [done|]; split; [lia|done]|].
        intros [(? & ? & [?|[=]])|[?|?]]; lia.
      * eexists _, _. split; [done|]. split; [done|].
        split; [intros [=]|]. intros [(? & ? & [?|[=]])|[?|?]]; lia.
    + eexists _, _. split; [done|]. split; [done|].
      rewrite andb_true_iff, !Z.eqb_eq.
      split; [intros [? ?]; left; auto|].
      intros [(? & ? & _)|[?|(_ & _ & ?)]]; [done|lia|done].
  - destruct ((rA =? 7) && (cA =? cB)) eqn:E1.
    { eexists _, x. split; [done|]. split; [done|].
      rewrite orb_true_iff, !Z.eqb_eq. lia. }
    destruct x as [p|]; cbn [is_blank negb andb].
    + destruct (rA - rB =? 1) eqn:E2.
      * eexists _, _. split; [done|]. split; [done|]. rewrite Z.eqb_eq.
        split; [intros ?; right; right; split; [lia|]; split; [lia|done]|].
        intros [(? & ? & [?|[=]])|[?|?]]; lia.
      * eexists _, _. split; [done|]. split; [done|].
        split; [intros [=]|]. intros [(? & ? & [?|[=]])|[?|?]]; lia.
    + eexists _, _. split; [done|]. split; [done|].
      rewrite andb_true_iff, !Z.eqb_eq.
      split; [intros [? ?]; left; auto|].
      intros [(? & ? & _)|[?|(_ & _ & ?)]]; [done|lia|done].
Qed.

(** ** What check_move accepts *)

Lemma for_each_total {A S} (l : list A) (body : S → A → res S) :
  (∀ s x, ∃ s', body s x = Ok s') → ∀ s, ∃ s', for_each l s body = Ok s'.
Proof.
  intros Hbody. induction l as [|x l IH]; intros s; cbn [for_each]; [eauto|].
  destruct (Hbody s x) as [s1 ->]. cbn [mbind res_bind]. apply IH.
Qed.

(** On a well-shaped board the double-kill loops return. *)
Lemma kings_in_blast_total (b : board) row_B column_B :
  board_ok b → ∃ flags, kings_in_blast b row_B column_B = Ok flags.
Proof.
  intros Hb. unfold kings_in_blast. apply for_each_total. intros flags row.
  apply for_each_total. intros [w k] column. unfold kings_body.
  destruct (off_board row column) eqn:Hoff; [eauto|].
  apply off_board_false in Hoff as [Hr Hc].
  destruct (board_get_total b row column Hb Hr Hc) as [[p|] ->];
    cbn [mbind res_bind]; eauto.
Qed.

(** X6: [check_move] refuses, before any piece rule is asked, a move from an
    empty square, a move of a piece of the other colour, and a move onto a
    piece of the mover's own colour. *)
Theorem check_move_rejects (b : board) pA pB (c : color) x y :
  wf_board b = true → on_board pA = true → on_board pB = true →
  board_get b (rank_of pA) (file_of pA) = Ok x →
  board_get b (rank_of pB) (file_of pB) = Ok y →
  x = None ∨ (∃ p, x = Some p ∧ p_color p ≠ c) ∨ (∃ q, y = Some q ∧ p_color q = c) →
  check_move b pA pB c = Ok false.
Proof.
  intros Hb%wf_board_ok HA HB Hx Hy H.
  destruct (indices_on_board pA pB HA HB) as (Hi & _).
  unfold check_move. rewrite Hi. cbn [mbind res_bind].
  rewrite Hx, Hy. cbn [mbind res_bind].
  destruct x as [p|]; [|done]. unfold get_color.
  destruct (decide (p_color p = c)) as [Hp|Hp].
  - rewrite (bool_decide_eq_true_2 _ Hp). cbn [negb].
    destruct H as [[=]|[(p' & [= <-] & ?)|(q & -> & Hq)]]; [done|].
    by rewrite (bool_decide_eq_true_2 _ Hq).
  - by rewrite (bool_decide_eq_false_2 _ Hp).
Qed.

(** X7: [check_move] returns True exactly when the source holds a piece of the
    colour to move, the destination does not hold a piece of that colour,
    and the rule of the piece accepts the move.  The test for a move that
    kills both kings never changes the answer. *)
Theorem check_move_accepts (b : board) pA pB (c : color) :
  wf_board b = true → on_board pA = true → on_board pB = true →
  check_move b pA pB c = Ok true ↔
  ∃ p, board_get b (rank_of pA) (file_of pA) = Ok (Some p) ∧ p_color p = c ∧
    (∀ q, board_get b (rank_of pB) (file_of pB) = Ok (Some q) → p_color q ≠ c) ∧
    get_movement p pA pB c b = Ok true.
Proof.
  intros Hb%wf_board_ok HA HB.
  destruct (indices_on_board pA pB HA HB) as (Hi & HrA & HrB & HcA & HcB).
  destruct (board_get_total b _ _ Hb HrA HcA) as [x Hx].
  destruct (board_get_total b _ _ Hb HrB HcB) as [y Hy].
  unfold check_move. rewrite Hi. cbn [mbind res_bind].
  rewrite Hx, Hy. cbn [mbind res_bind].
  destruct x as [p|]; [|split; [intros [=]|intros (? & [=] & _)]].
  unfold get_color.
  destruct (decide (p_color p = c)) as [Hp|Hp].
  2: { rewrite (bool_decide_eq_false_2 _ Hp). cbn [negb].
       split; [intros [=]|]. intros (p' & [= <-] & ? & _). done. }
  rewrite (bool_decide_eq_true_2 _ Hp). cbn [negb].
  assert ((if match y with
              | Some pB0 => bool_decide (p_color pB0 = c)
              | None => false
              end then true else false) = false
          ↔ ∀ q, Ok y = Ok (Some q) → p_color q ≠ c) as Hown.
  { destruct y as [q|].
    - case_bool_decide as Hq.
      + split; [intros [=]|]. intros H. by destruct (H q eq_refl).
      + split; [|done]. intros _ q' [= <-]. done.
    - split; [|done]. intros _ q' [=]. }
  destruct (match y with Some _ => _ | None => _ end) eqn:Eown.
  { split; [intros [=]|]. intros (p' & [= <-] & _ & Hq & _).
    cbn in Hown. apply Hown in Hq. discriminate Hq. }
  assert ((file_of pB >? 7) || (file_of pB <? 0) || (rank_of pB >? 8)
          || (rank_of pB <? 0) = false) as -> by lia.
  destruct (get_movement p pA pB c b) as [[]|e] eqn:Hmv; cbn [mbind res_bind negb].
  - destruct (kings_in_blast_total b (rank_of pB) (file_of pB) Hb) as [[dw db] Hk].
    rewrite Hk. cbn [mbind res_bind].
    rewrite (kings_in_blast_dead_black _ _ _ _ _ Hk), andb_false_r.
    split; [|done]. intros _. exists p.
    split; [done|]. split; [done|]. split; [|done]. by apply Hown.
  - split; [intros [=]|]. intros (p' & [= <-] & _ & _ & H).
    rewrite Hmv in H. discriminate H.
  - split; [intros [=]|]. intros (p' & [= <-] & _ & _ & H).
    rewrite Hmv in H. discriminate H.
Qed.

(** ** Moves to an empty square *)

(** The board after a move to an empty square, square by square: the
    destination receives what stood on the source, then the source is
    cleared. *)
Lemma move_piece_quiet_cells (b : board) pA pB x :
  board_ok b → on_board pA = true → on_board pB = true →
  board_get b (rank_of pA) (file_of pA) = Ok x →
  board_get b (rank_of pB) (file_of pB) = Ok None →
  ∃ b', move_piece b pA pB = Ok b' ∧ board_ok b' ∧
    ∀ row column y, 1 ≤ row ≤ 8 → 0 ≤ column ≤ 7 →
      board_get b row column = Ok y →
      board_get b' row column =
        Ok (if bool_decide (row = rank_of pA ∧ column = file_of pA) then None
            else if bool_decide (row = rank_of pB ∧ column = file_of pB) then x
            else y).
Proof.
  intros Hb HA HB Hsrc Hdst.
  destruct (indices_on_board pA pB HA HB) as (Hi & HrA & HrB & HcA & HcB).
  unfold move_piece. rewrite Hi. cbn [mbind res_bind].
  rewrite Hdst. cbn [mbind res_bind is_blank]. rewrite Hsrc. cbn [mbind res_bind].
  destruct (board_set_spec b (rank_of pB) (file_of pB) x Hb HrB HcB)
    as (b1 & -> & Hb1 & H1). cbn [mbind res_bind].
  destruct (board_set_spec b1 (rank_of pA) (file_of pA) None Hb1 HrA HcA)
    as (b2 & -> & Hb2 & H2).
  board_after b2. intros row column y Hrow Hcol Hy.
  rewrite H2, H1, Hy by done.
  destruct (bool_decide (row = rank_of pA ∧ column = file_of pA)),
           (bool_decide (row = rank_of pB ∧ column = file_of pB)); done.
Qed.

(** X8: a move to an empty square leaves the source empty, puts the mover on
    the destination and changes no other square. *)
Theorem move_piece_quiet (b : board) pA pB x :
  wf_board b = true → on_board pA = true → on_board pB = true →
  board_get b (rank_of pA) (file_of pA) = Ok x →
  board_get b (rank_of pB) (file_of pB) = Ok None →
  ∃ b', move_piece b pA pB = Ok b' ∧ wf_board b' = true ∧
    board_get b' (rank_of pA) (file_of pA) = Ok None ∧
    (¬ (rank_of pA = rank_of pB ∧ file_of pA = file_of pB) →
       board_get b' (rank_of pB) (file_of pB) = Ok x) ∧
    (∀ row column, 1 ≤ row ≤ 8 → 0 ≤ column ≤ 7 →
       ¬ (row = rank_of pA ∧ column = file_of pA) →
       ¬ (row = rank_of pB ∧ column = file_of pB) →
       board_get b' row column = board_get b row column).
Proof.
  intros Hb%wf_board_ok HA HB Hsrc Hdst.
  destruct (indices_on_board pA pB HA HB) as (_ & HrA & HrB & HcA & HcB).
  destruct (move_piece_quiet_cells b pA pB x Hb HA HB Hsrc Hdst)
    as (b' & Hmv & Hb' & H).
  exists b'. split; [done|]. split; [by apply wf_board_ok|].
  split; [|split].
  - rewrite (H _ _ x HrA HcA Hsrc). by rewrite bool_decide_eq_true_2.
  - intros Hne. rewrite (H _ _ None HrB HcB Hdst).
    rewrite bool_decide_eq_false_2 by (intros [? ?]; apply Hne; done).
    by rewrite bool_decide_eq_true_2.
  - intros row column Hrow Hcol HnA HnB.
    destruct (board_get_total b _ _ Hb Hrow Hcol) as [y Hy].
    rewrite (H _ _ y Hrow Hcol Hy), Hy. by rewrite !bool_decide_eq_false_2.
Qed.

Lemma blast_Some x q : blast x = Some q → x = Some q.
Proof.
  destruct x as [p|]; cbn; [|done]. by case_bool_decide.
Qed.

(** X9: [move_piece] puts no piece on the board: a piece found on a square
    afterwards stood there before, or it is the mover arrived on the
    destination, which was empty. *)
Theorem move_piece_no_new_piece (b b' : board) pA pB row column q :
  wf_board b = true → on_board pA = true → on_board pB = true →
  move_piece b pA pB = Ok b' →
  1 ≤ row ≤ 8 → 0 ≤ column ≤ 7 →
  board_get b' row column = Ok (Some q) →
  board_get b row column = Ok (Some q)
  ∨ (row = rank_of pB ∧ column = file_of pB
     ∧ board_get b (rank_of pB) (file_of pB) = Ok None
     ∧ board_get b (rank_of pA) (file_of pA) = Ok (Some q)).
Proof.
  intros Hb%wf_board_ok HA HB Hmv Hrow Hcol Hq.
  destruct (indices_on_board pA pB HA HB) as (_ & HrA & HrB & HcA & HcB).
  destruct (board_get_total b _ _ Hb HrA HcA) as [x Hx].
  destruct (board_get_total b _ _ Hb HrB HcB) as [y Hy].
  destruct (board_get_total b _ _ Hb Hrow Hcol) as [z Hz].
  destruct y as [p|].
  - destruct (move_piece_capture_cells b pA pB p Hb HA HB Hy) as (b'' & Hmv' & _ & H).
    assert (b'' = b') as -> by congruence.
    rewrite (H _ _ z Hrow Hcol Hz) in Hq. cbn zeta in Hq. left. rewrite Hz.
    destruct (bool_decide (row = rank_of pA ∧ column = file_of pA)),
             (bool_decide (row = rank_of pB ∧ column = file_of pB)),
             (bool_decide (in_blast _ _ _ _));
      injection Hq as Hq; try apply blast_Some in Hq;
      first [discriminate Hq | by rewrite Hq].
  - destruct (move_piece_quiet_cells b pA pB x Hb HA HB Hx Hy) as (b'' & Hmv' & _ & H).
    assert (b'' = b') as -> by congruence.
    rewrite (H _ _ z Hrow Hcol Hz) in Hq.
    case_bool_decide as E1; [discriminate Hq|].
    case_bool_decide as E2.
    + right. destruct E2 as [-> ->]. do 3 (split; [done|]).
      injection Hq as Hq. by rewrite Hx, Hq.
    + left. injection Hq as Hq. by rewrite Hz, Hq.
Qed.

(** ** One accepted call of make_move *)

Lemma check_move_true_inv (b : board) pA pB (c : color) :
  board_ok b → check_move b pA pB c = Ok true →
  on_board pA = true ∧ on_board pB = true ∧
  ∃ p y, board_get b (rank_of pA) (file_of pA) = Ok (Some p) ∧ p_color p = c ∧
    board_get b (rank_of pB) (file_of pB) = Ok y ∧
    (∀ q, y = Some q → p_color q ≠ c).
Proof.
  intros Hb H.
  destruct (check_move_Ok_on_board b pA pB c true Hb H) as [HA HB].
  do 2 (split; [done|]).
  destruct (indices_on_board pA pB HA HB) as (Hi & HrA & HrB & HcA & HcB).
  destruct (board_get_total b _ _ Hb HrA HcA) as [x Hx].
  destruct (board_get_total b _ _ Hb HrB HcB) as [y Hy].
  unfold check_move in H. rewrite Hi in H. cbn [mbind res_bind] in H.
  rewrite Hx, Hy in H. cbn [mbind res_bind] in H.
  destruct x as [p|]; [|discriminate H].
  unfold get_color in H.
  destruct (decide (p_color p = c)) as [Hp|Hp].
  2: { rewrite (bool_decide_eq_false_2 _ Hp) in H. discriminate H. }
  exists p, y. do 3 (split; [done|]).
  intros q -> Hq.
  rewrite (bool_decide_eq_true_2 _ Hp) in H. cbn [negb] in H.
  rewrite (bool_decide_eq_true_2 _ Hq) in H. discriminate H.
Qed.

Lemma make_move_accepted (g g' : game) pA pB :
  make_move g pA pB = Ok (true, g') →
  game_state g = UNFINISHED ∧
  check_move (g_board g) pA pB (turn g) = Ok true ∧
  ∃ b', move_piece (g_board g) pA pB = Ok b' ∧
    g' = set_turn (check_king (set_board g b')) (other (turn g)).
Proof.
  intros (g0 & H0 & ->)%make_move_inv.
  apply make_move_body_inv in H0 as [[[=] _]|(_ & Hst & Hck & b' & Hmv & ->)].
  do 2 (split; [done|]). exists b'. split; [done|].
  by rewrite check_king_turn.
Qed.

Lemma make_move_rejected (g g' : game) pA pB :
  make_move g pA pB = Ok (false, g') → g' = g.
Proof.
  intros (g0 & H0 & ->)%make_move_inv.
  by apply make_move_body_inv in H0 as [[_ ->]|([=] & _)].
Qed.

(** X10: what an accepted move does to its two squares: the source held a piece
    of the side to move and is empty afterwards; the destination holds that
    piece when it was empty before, and is empty when it was occupied (the
    capturing piece goes with the captured one). *)
Theorem make_move_squares (g g' : game) pA pB :
  wf_board (g_board g) = true →
  make_move g pA pB = Ok (true, g') →
  ∃ p y,
    board_get (g_board g) (rank_of pA) (file_of pA) = Ok (Some p) ∧
    p_color p = turn g ∧
    board_get (g_board g) (rank_of pB) (file_of pB) = Ok y ∧
    board_get (g_board g') (rank_of pA) (file_of pA) = Ok None ∧
    board_get (g_board g') (rank_of pB) (file_of pB) =
      Ok (match y with None => Some p | Some _ => None end).
Proof.
  intros Hb%wf_board_ok (Hst & Hck & b' & Hmv & ->)%make_move_accepted.
  destruct (check_move_true_inv _ _ _ _ Hb Hck)
    as (HA & HB & p & y & Hx & Hp & Hy & Hown).
  destruct (indices_on_board pA pB HA HB) as (_ & HrA & HrB & HcA & HcB).
  exists p, y. do 3 (split; [done|]).
  cbn [g_board set_turn]. rewrite check_king_board. cbn [g_board set_board].
  destruct y as [q|].
  - destruct (move_piece_capture_cells _ pA pB q Hb HA HB Hy)
      as (b'' & Hmv' & _ & H).
    assert (b'' = b') as -> by congruence.
    rewrite (H _ _ _ HrA HcA Hx), (H _ _ _ HrB HcB Hy). cbn zeta.
    rewrite (bool_decide_eq_true_2 (rank_of pA = rank_of pA ∧ _)) by done.
    rewrite (bool_decide_eq_true_2 (rank_of pB = rank_of pB ∧ _)) by done.
    split.
    + by destruct (bool_decide (in_blast _ _ (rank_of pA) _)).
    + destruct (bool_decide (rank_of pB = rank_of pA ∧ _));
        by destruct (bool_decide (in_blast _ _ (rank_of pB) _)).
  - assert (¬ (rank_of pB = rank_of pA ∧ file_of pB = file_of pA)) as Hne.
    { intros [E1 E2]. rewrite E1, E2, Hx in Hy. discriminate Hy. }
    destruct (move_piece_quiet_cells _ pA pB _ Hb HA HB Hx Hy)
      as (b'' & Hmv' & _ & H).
    assert (b'' = b') as -> by congruence.
    rewrite (H _ _ _ HrA HcA Hx), (H _ _ _ HrB HcB Hy).
    rewrite (bool_decide_eq_true_2 (rank_of pA = rank_of pA ∧ _)) by done.
    rewrite (bool_decide_eq_false_2 _ Hne).
    by rewrite (bool_decide_eq_true_2 (rank_of pB = rank_of pB ∧ _)).
Qed.

Lemma make_move_accepted_state (g g' : game) pA pB :
  wf_board (g_board g) = true →
  make_move g pA pB = Ok (true, g') →
  game_state g' = status_of_kings (g_board g').
Proof.
  intros Hb Hmm. pose proof (make_move_wf _ _ _ _ _ Hb Hmm) as Hb'.
  apply make_move_accepted in Hmm as (Hst & _ & b' & _ & ->).
  cbn [g_board game_state set_turn] in *.
  rewrite check_king_board in Hb'. rewrite check_king_board.
  rewrite (check_king_state _ Hb'). cbn [g_board game_state set_board].
  rewrite Hst. unfold status_of_kings.
  by destruct (has_king b' White), (has_king b' Black).
Qed.

(** ** Sequences of calls *)

Lemma play_cons_inv (g g' : game) pA pB rest rs :
  play g ((pA, pB) :: rest) = Ok (rs, g') →
  ∃ r g1 rs', make_move g pA pB = Ok (r, g1) ∧ play g1 rest = Ok (rs', g')
    ∧ rs = r :: rs'.
Proof.
  cbn [play]. intros ([r g1] & H1 & H)%bind_Ok.
  apply bind_Ok in H as ([rs' g2] & H2 & [= <- <-]). eauto 10.
Qed.

(** X11: along any sequence of calls that return, the board keeps its shape:
    rows 1 to 8, eight cells each. *)
Theorem play_wf_board (moves : list (string * string)) : ∀ (g g' : game) rs,
  wf_board (g_board g) = true → play g moves = Ok (rs, g') →
  wf_board (g_board g') = true.
Proof.
  induction moves as [|[pA pB] rest IH]; intros g g' rs Hb H.
  - by injection H as _ <-.
  - apply play_cons_inv in H as (r & g1 & rs' & H1 & H2 & _).
    eapply IH; [|exact H2]. by eapply make_move_wf.
Qed.

(** X12: the status follows the kings: if it agrees with the kings on the board
    before a sequence of calls, it agrees with them afterwards. *)
Theorem play_status (moves : list (string * string)) : ∀ (g g' : game) rs,
  wf_board (g_board g) = true →
  game_state g = status_of_kings (g_board g) →
  play g moves = Ok (rs, g') →
  game_state g' = status_of_kings (g_board g').
Proof.
  induction moves as [|[pA pB] rest IH]; intros g g' rs Hb Hst H.
  - by injection H as _ <-.
  - apply play_cons_inv in H as (r & g1 & rs' & H1 & H2 & _).
    eapply IH; [| |exact H2].
    + by eapply make_move_wf.
    + destruct r.
      * by eapply make_move_accepted_state.
      * by apply make_move_rejected in H1 as ->.
Qed.

(** X13: once a side has won, a sequence of calls of any length returns False
    every time and leaves the game as it is; none of them raises, whatever
    the arguments. *)
Theorem play_finished (moves : list (string * string)) (g : game) :
  game_state g ≠ UNFINISHED →
  play g moves = Ok (replicate (length moves) false, g).
Proof.
  intros Hst. induction moves as [|[pA pB] rest IH]; [done|].
  cbn [play length replicate].
  assert (make_move g pA pB = Ok (false, g)) as ->.
  { unfold make_move, move_decorator, make_move_body.
    by rewrite bool_decide_eq_false_2. }
  cbn [mbind res_bind]. by rewrite IH.
Qed.

Lemma accepted_cons r rs :
  accepted (r :: rs) = if r then S (accepted rs) else accepted rs.
Proof. unfold accepted. by destruct r. Qed.

(** X14: a sequence of calls answers each call, and the side to move afterwards
    is the one before when an even number of calls were accepted, the other
    one when an odd number were. *)
Theorem play_turn (moves : list (string * string)) : ∀ (g g' : game) rs,
  play g moves = Ok (rs, g') →
  length rs = length moves ∧
  turn g' = if Nat.even (accepted rs) then turn g else other (turn g).
Proof.
  induction moves as [|[pA pB] rest IH]; intros g g' rs H.
  - by injection H as <- <-.
  - apply play_cons_inv in H as (r & g1 & rs' & H1 & H2 & ->).
    destruct (IH _ _ _ H2) as [Hlen Hturn].
    split; [cbn [length]; by rewrite Hlen|].
    rewrite Hturn, accepted_cons. destruct r.
    + apply make_move_accepted in H1 as (_ & _ & b' & _ & ->).
      cbn [turn set_turn]. rewrite Nat.even_succ, <- Nat.negb_even.
      destruct (Nat.even (accepted rs')); cbn [negb]; [done|].
      by destruct (turn g).
    + by apply make_move_rejected in H1 as ->.
Qed.

(** ** What the opening assignments accept *)

Lemma list_index_columns_cases f :
  list_index f columns =
    if (97 <=? code f) && (code f <=? 104) then Ok (code f - 97)
    else Raise ValueError.
Proof.
  destruct f as [[] [] [] [] [] [] [] []]; vm_compute; reflexivity.
Qed.

(** X15: on squares written in Latin-1 the four opening assignments look at
    the first two characters of each square only.  They succeed exactly
    when these are a letter a-h and a digit "0" to "9" (0 and 9 included),
    and give the indices read off them; otherwise they raise IndexError (a
    square shorter than two characters) or ValueError, never anything
    else. *)
Theorem indices_parses pA pB :
  if parses pA && parses pB
  then indices pA pB = Ok (rank_of pA, rank_of pB, file_of pA, file_of pB)
  else indices pA pB = Raise IndexError ∨ indices pA pB = Raise ValueError.
Proof.
  destruct pA as [|fA [|dA sA]]; [by left|by left|].
  destruct pB as [|fB [|dB sB]].
  1, 2: unfold indices; cbn [str_index String.get mbind res_bind parses];
        rewrite andb_false_r; unfold int_of_char;
        destruct (_ && _); cbn [mbind res_bind]; first [by left | by right].
  unfold indices.
  cbn [str_index String.get mbind res_bind parses rank_of file_of].
  rewrite !list_index_columns_cases. unfold int_of_char. fold (code dA) (code dB).
  destruct (97 <=? code fA), (code fA <=? 104), (48 <=? code dA),
           (code dA <=? 57), (97 <=? code fB), (code fB <=? 104),
           (48 <=? code dB), (code dB <=? 57);
    cbn [andb mbind res_bind]; first [reflexivity | by right].
Qed.

Lemma indices_first_two pA pB :
  indices (first_two pA) (first_two pB) = indices pA pB.
Proof.
  by destruct pA as [|fA [|dA sA]], pB as [|fB [|dB sB]].
Qed.

(** X16: whatever follows the first two characters of a square is ignored:
    [make_move] answers the same, result, game and exception alike, when
    both squares are cut down to two characters. *)
Theorem make_move_first_two (g : game) pA pB :
  make_move g (first_two pA) (first_two pB) = make_move g pA pB.
Proof.
  pose proof (indices_first_two pA pB) as Hi.
  assert (∀ p c b, get_movement p (first_two pA) (first_two pB) c b
                   = get_movement p pA pB c b) as Hmv.
  { intros p c b. unfold get_movement.
    destruct (p_letter p);
      [unfold Pawn.get_movement|unfold King.get_movement
      |unfold Knight.get_movement|unfold Rook.get_movement
      |unfold Bishop.get_movement|unfold Queen.get_movement];
      by rewrite Hi. }
  assert (∀ b c, check_move b (first_two pA) (first_two pB) c
                 = check_move b pA pB c) as Hck.
  { intros b c. unfold check_move. rewrite Hi.
    destruct (indices pA pB) as [[[[rA rB] cA] cB]|e]; [|done].
    cbn [mbind res_bind].
    destruct (board_get b rA cA) as [[p|]|]; [|done..]. cbn [mbind res_bind].
    destruct (board_get b rB cB) as [y|]; [|done]. cbn [mbind res_bind].
    by rewrite Hmv. }
  assert (∀ b, move_piece b (first_two pA) (first_two pB)
               = move_piece b pA pB) as Hmp.
  { intros b. unfold move_piece. by rewrite Hi. }
  unfold make_move, move_decorator, make_move_body.
  by rewrite Hck, Hmp.
Qed.

(** ** When make_move returns and when it raises *)

(** Every rule but the queen's returns on squares of the board. *)
Lemma get_movement_total (b : board) (p : piece) pA pB (c : color) :
  board_ok b → on_board pA = true → on_board pB = true →
  p_letter p ≠ Queen →
  ∃ r, get_movement p pA pB c b = Ok r.
Proof.
  intros Hb HA HB Hq.
  destruct (indices_on_board pA pB HA HB) as (Hi & HrA & HrB & HcA & HcB).
  destruct (board_get_total b _ _ Hb HrB HcB) as [y Hy].
  unfold get_movement. destruct (p_letter p); [| | | | |done].
  - unfold Pawn.get_movement. rewrite Hi. cbn [mbind res_bind].
    destruct c; (destruct (_ && _); [eauto|]); rewrite Hy; cbn [mbind res_bind];
      destruct (_ && _); eauto.
  - unfold King.get_movement. rewrite Hi. cbn [mbind res_bind].
    rewrite Hy. cbn [mbind res_bind].
    destruct (negb _); [eauto|]. do 3 (destruct (_ && _); [eauto|]). eauto.
  - unfold Knight.get_movement. rewrite Hi. cbn [mbind res_bind].
    do 2 (destruct (_ && _); [eauto|]). eauto.
  - unfold Rook.get_movement. rewrite Hi. cbn [mbind res_bind].
    destruct (_ && _).
    { destruct (scan_columns_spec b (rank_of pA)
                  (py_range (file_of pA + 1) (file_of pB)) Hb HrA) as (r & -> & _);
        [intros c' Hc'%elem_of_seqZ; lia|eauto]. }
    destruct (_ && _).
    { destruct (scan_columns_spec b (rank_of pA)
                  (py_range (file_of pB + 1) (file_of pA)) Hb HrA) as (r & -> & _);
        [intros c' Hc'%elem_of_seqZ; lia|eauto]. }
    destruct (_ && _).
    { destruct (scan_rows_spec b (py_range (rank_of pA + 1) (rank_of pB))
                  (file_of pA) Hb HcA) as (r & -> & _);
        [intros c' Hc'%elem_of_seqZ; lia|eauto]. }
    destruct (_ && _); [|eauto].
    destruct (scan_rows_spec b (py_range (rank_of pB + 1) (rank_of pA))
                (file_of pA) Hb HcA) as (r & -> & _);
      [intros c' Hc'%elem_of_seqZ; lia|eauto].
  - unfold Bishop.get_movement. rewrite Hi. cbn [mbind res_bind].
    destruct (_ || _); [eauto|].
    destruct (Z.abs (rank_of pA - rank_of pB) =? Z.abs (file_of pA - file_of pB))
      eqn:Ed; cbn [negb]; [apply Z.eqb_eq in Ed|eauto].
    destruct ((rank_of pA <? rank_of pB) && (file_of pA <? file_of pB)) eqn:E1.
    { apply andb_prop in E1 as [?%Z.ltb_lt ?%Z.ltb_lt].
      destruct (scan_diagonal_range b (rank_of pA + 1) (rank_of pB)
                  (file_of pA + 1) 1 Hb) as (r & -> & _);
        [by left|intros; lia|eauto]. }
    destruct ((rank_of pA <? rank_of pB) && (file_of pA >? file_of pB)) eqn:E2.
    { apply andb_prop in E2 as [?%Z.ltb_lt ?%Z.gtb_lt].
      destruct (scan_diagonal_range b (rank_of pA + 1) (rank_of pB)
                  (file_of pA - 1) (-1) Hb) as (r & -> & _);
        [by right|intros; lia|eauto]. }
    destruct ((rank_of pA >? rank_of pB) && (file_of pA <? file_of pB)) eqn:E3.
    { apply andb_prop in E3 as [?%Z.gtb_lt ?%Z.ltb_lt].
      destruct (scan_diagonal_range b (rank_of pB + 1) (rank_of pA)
                  (file_of pB - 1) (-1) Hb) as (r & -> & _);
        [by right|intros; lia|eauto]. }
    destruct ((rank_of pA >? rank_of pB) && (file_of pA >? file_of pB)) eqn:E4;
      [|eauto].
    apply andb_prop in E4 as [?%Z.gtb_lt ?%Z.gtb_lt].
    destruct (scan_diagonal_range b (rank_of pB + 1) (rank_of pA)
                (file_of pB + 1) 1 Hb) as (r & -> & _);
      [by left|intros; lia|eauto].
Qed.

(** X17: on two squares of the board [make_move] returns, with True or False
    and never with an exception, unless the piece asked to move is a
    queen. *)
Theorem make_move_returns (g : game) pA pB :
  wf_board (g_board g) = true → on_board pA = true → on_board pB = true →
  (∀ p, board_get (g_board g) (rank_of pA) (file_of pA) = Ok (Some p) →
        p_letter p ≠ Queen) →
  ∃ r g', make_move g pA pB = Ok (r, g').
Proof.
  intros Hb%wf_board_ok HA HB Hq.
  destruct (indices_on_board pA pB HA HB) as (Hi & HrA & HrB & HcA & HcB).
  destruct (board_get_total _ _ _ Hb HrA HcA) as [x Hx].
  destruct (board_get_total _ _ _ Hb HrB HcB) as [y Hy].
  assert (∃ r, check_move (g_board g) pA pB (turn g) = Ok r) as [r Hck].
  { unfold check_move. rewrite Hi. cbn [mbind res_bind].
    rewrite Hx, Hy. cbn [mbind res_bind].
    destruct x as [p|]; [|eauto].
    destruct (negb _); [eauto|].
    destruct (match y with Some _ => _ | None => _ end); [eauto|].
    destruct (_ || _); [eauto|].
    destruct (get_movement_total _ p pA pB (turn g) Hb HA HB (Hq p Hx)) as [r ->].
    cbn [mbind res_bind]. destruct (negb r); [eauto|].
    destruct (kings_in_blast_total (g_board g) (rank_of pB) (file_of pB) Hb)
      as [[dw db] ->].
    cbn [mbind res_bind]. destruct (dw && db); eauto. }
  unfold make_move, move_decorator, make_move_body.
  destruct (negb (bool_decide _)); [cbn [mbind res_bind]; eauto|].
  rewrite Hck. cbn [mbind res_bind].
  destruct r; cbn [negb]; [|cbn [mbind res_bind]; eauto].
  destruct (move_piece_ok _ pA pB Hb HA HB) as (b' & -> & _).
  cbn [mbind res_bind]. rewrite check_king_turn. cbn [turn set_board].
  destruct (turn g); eauto.
Qed.

Lemma board_get_IndexError (b : board) row :
  board_ok b → 1 ≤ row ≤ 8 → board_get b row 8 = Raise IndexError.
Proof.
  intros [H1 H2] Hrow. destruct (H2 row Hrow) as [l Hl].
  destruct (H1 row l Hl) as [_ Hlen].
  unfold board_get, py_index. rewrite Hl, Hlen. reflexivity.
Qed.

(** A diagonal scan towards the h-file over more rows than there are files
    left runs into column 8 when the squares on the way are empty. *)
Lemma scan_diagonal_overrun (b : board) : board_ok b → ∀ rows column,
  (∀ row, row ∈ rows → 1 ≤ row ≤ 8) → 0 ≤ column ≤ 8 →
  8 - column < Z.of_nat (length rows) →
  (∀ i row, rows !! i = Some row → column + Z.of_nat i ≤ 7 →
     board_get b row (column + Z.of_nat i) = Ok None) →
  scan_diagonal b rows column 1 = Raise IndexError.
Proof.
  intros Hb rows. induction rows as [|row rest IH]; intros column Hrows Hc Hlen Hcells.
  - cbn [length] in Hlen. lia.
  - cbn [scan_diagonal].
    assert (1 ≤ row ≤ 8) as Hrow by (apply Hrows, elem_of_cons; by left).
    destruct (decide (column = 8)) as [->|Hne].
    + by rewrite board_get_IndexError.
    + pose proof (Hcells 0%nat row eq_refl) as H0.
      rewrite Z.add_0_r in H0. rewrite H0 by lia.
      cbn [mbind res_bind is_blank]. apply IH.
      * intros r Hr. apply Hrows, elem_of_cons. by right.
      * lia.
      * cbn [length] in Hlen. lia.
      * intros i r Hi Hle. rewrite <- Z.add_assoc.
        replace (1 + Z.of_nat i) with (Z.of_nat (S i)) by lia.
        apply Hcells; [done|lia].
Qed.

Lemma queen_overrun (b : board) pA pB (c : color) :
  board_ok b → on_board pA = true → on_board pB = true →
  rank_of pA < rank_of pB → file_of pA < file_of pB →
  8 < file_of pA + (rank_of pB - rank_of pA) →
  (∀ k, 0 < k → file_of pA + k ≤ 7 →
     board_get b (rank_of pA + k) (file_of pA + k) = Ok None) →
  Queen.get_movement pA pB c b = Raise IndexError.
Proof.
  intros Hb HA HB Hr Hc Hover Hcells.
  destruct (indices_on_board pA pB HA HB) as (Hi & HrA & HrB & HcA & HcB).
  unfold Queen.get_movement. rewrite Hi. cbn [mbind res_bind].
  assert ((rank_of pA =? rank_of pB) = false) as -> by lia.
  assert ((file_of pA =? file_of pB) = false) as -> by lia.
  assert ((rank_of pA <? rank_of pB) = true) as -> by lia.
  assert ((file_of pA <? file_of pB) = true) as -> by lia.
  cbn [andb]. unfold py_range. apply scan_diagonal_overrun; [done| | | |].
  - intros row Hrow%elem_of_seqZ. lia.
  - lia.
  - rewrite length_seqZ. lia.
  - intros i row Hi' Hle. apply lookup_seqZ in Hi' as [-> Hi'].
    replace (rank_of pA + 1 + Z.of_nat i) with (rank_of pA + (1 + Z.of_nat i)) by lia.
    replace (file_of pA + 1 + Z.of_nat i) with (file_of pA + (1 + Z.of_nat i)) by lia.
    apply Hcells; lia.
Qed.

(** X18: a queen of the side to move sent up and to the right, to a square
    not held by her own side and at least two ranks further up than there
    are files to her right (file index plus rank difference above 8), with
    the squares of her diagonal empty as far as the h-file: the scan of
    her path goes one column past the h-file and [make_move] raises
    IndexError instead of answering False. *)
Theorem make_move_queen_overrun (g : game) pA pB :
  wf_board (g_board g) = true → game_state g = UNFINISHED →
  on_board pA = true → on_board pB = true →
  board_get (g_board g) (rank_of pA) (file_of pA)
    = Ok (Some (Piece (turn g) Queen)) →
  (∀ q, board_get (g_board g) (rank_of pB) (file_of pB) = Ok (Some q) →
        p_color q ≠ turn g) →
  rank_of pA < rank_of pB → file_of pA < file_of pB →
  8 < file_of pA + (rank_of pB - rank_of pA) →
  (∀ k, 0 < k → file_of pA + k ≤ 7 →
     board_get (g_board g) (rank_of pA + k) (file_of pA + k) = Ok None) →
  make_move g pA pB = Raise IndexError.
Proof.
  intros Hb%wf_board_ok Hst HA HB Hx Hown Hr Hc Hover Hcells.
  destruct (indices_on_board pA pB HA HB) as (Hi & HrA & HrB & HcA & HcB).
  destruct (board_get_total _ _ _ Hb HrB HcB) as [y Hy].
  unfold make_move, move_decorator, make_move_body.
  rewrite (bool_decide_eq_true_2 _ Hst). cbn [negb].
  unfold check_move. rewrite Hi. cbn [mbind res_bind].
  rewrite Hx, Hy. cbn [mbind res_bind get_color p_color].
  rewrite (bool_decide_eq_true_2 (turn g = turn g)) by done. cbn [negb].
  assert (match y with
          | Some pB0 => bool_decide (get_color pB0 = turn g)
          | None => false
          end = false) as ->.
  { destruct y as [q|]; [|done]. apply bool_decide_eq_false_2.
    apply Hown. by rewrite Hy. }
  assert ((file_of pB >? 7) || (file_of pB <? 0) || (rank_of pB >? 8)
          || (rank_of pB <? 0) = false) as -> by lia.
  unfold get_movement. cbn [p_letter].
  by rewrite (queen_overrun _ pA pB (turn g) Hb HA HB Hr Hc Hover Hcells).
Qed.

(** ** The further theorems at concrete positions *)

Lemma knight_rule_witness :
  indices "g1" "f3" = Ok (1, 3, 6, 5) ∧
  ∃ r, Knight.get_movement "g1" "f3" White initial_board = Ok r ∧
    (r = true ↔
       (Z.abs (1 - 3) = 2 ∧ Z.abs (6 - 5) = 1)
       ∨ (Z.abs (1 - 3) = 1 ∧ Z.abs (6 - 5) = 2)).
Proof.
  split; [run|]. apply (knight_rule "g1" "f3" White initial_board 1 3 6 5). run.
Defined.

Lemma rook_rule_witness :
  wf_board initial_board = true ∧ on_board "a1" = true ∧ on_board "a3" = true ∧
  ∃ r, Rook.get_movement "a1" "a3" White initial_board = Ok r ∧
    (r = true ↔
       (rank_of "a1" = rank_of "a3" ∧ file_of "a1" ≠ file_of "a3" ∧
        ∀ column, Z.min (file_of "a1") (file_of "a3") < column
                  < Z.max (file_of "a1") (file_of "a3") →
          board_get initial_board (rank_of "a1") column = Ok None)
       ∨
       (file_of "a1" = file_of "a3" ∧ rank_of "a1" ≠ rank_of "a3" ∧
        ∀ row, Z.min (rank_of "a1") (rank_of "a3") < row
               < Z.max (rank_of "a1") (rank_of "a3") →
          board_get initial_board row (file_of "a1") = Ok None)).
Proof.
  do 3 (split; [run|]). apply rook_rule; run.
Defined.

Lemma bishop_rule_witness :
  wf_board initial_board = true ∧ on_board "c1" = true ∧ on_board "e3" = true ∧
  ∃ r, Bishop.get_movement "c1" "e3" White initial_board = Ok r ∧
    (r = true ↔
       Z.abs (rank_of "c1" - rank_of "e3") = Z.abs (file_of "c1" - file_of "e3")
       ∧ rank_of "c1" ≠ rank_of "e3"
       ∧ ∀ k, 0 < k < Z.abs (rank_of "e3" - rank_of "c1") →
           board_get initial_board
             (rank_of "c1" + k * Z.sgn (rank_of "e3" - rank_of "c1"))
             (file_of "c1" + k * Z.sgn (file_of "e3" - file_of "c1"))
           = Ok None).
Proof.
  do 3 (split; [run|]). apply bishop_rule; run.
Defined.

Lemma queen_on_lines_witness :
  indices "d1" "d3" = Ok (1, 3, 3, 3) ∧
  (1 = 3 ∨ 3 = 3 →
     Queen.get_movement "d1" "d3" White initial_board
     = Rook.get_movement "d1" "d3" White initial_board)
  ∧ (Z.abs (1 - 3) = Z.abs (3 - 3) →
     Queen.get_movement "d1" "d3" White initial_board
     = Bishop.get_movement "d1" "d3" White initial_board).
Proof.
  split; [run|]. apply (queen_on_lines "d1" "d3" White initial_board 1 3 3 3). run.
Defined.

Lemma pawn_rule_witness :
  wf_board initial_board = true ∧ on_board "e2" = true ∧ on_board "e4" = true ∧
  ∃ r x, Pawn.get_movement "e2" "e4" White initial_board = Ok r ∧
    board_get initial_board (rank_of "e4") (file_of "e4") = Ok x ∧
    (r = true ↔
       (file_of "e2" = file_of "e4" ∧ advance White (rank_of "e2") (rank_of "e4") = 1
        ∧ (rank_of "e2" = home_rank White ∨ x = None))
       ∨ (file_of "e2" = file_of "e4"
          ∧ advance White (rank_of "e2") (rank_of "e4") = 2
          ∧ rank_of "e2" = home_rank White)
       ∨ (Z.abs (file_of "e2" - file_of "e4") = 1
          ∧ advance White (rank_of "e2") (rank_of "e4") = 1 ∧ x ≠ None)).
Proof.
  do 3 (split; [run|]). apply pawn_rule; run.
Defined.

Lemma check_move_rejects_witness :
  wf_board initial_board = true ∧ on_board "e4" = true ∧ on_board "e5" = true ∧
  board_get initial_board (rank_of "e4") (file_of "e4") = Ok None ∧
  board_get initial_board (rank_of "e5") (file_of "e5") = Ok None ∧
  check_move initial_board "e4" "e5" White = Ok false.
Proof.
  do 5 (split; [run|]).
  apply (check_move_rejects initial_board "e4" "e5" White None None);
    [run..|]. by left.
Defined.

Lemma check_move_accepts_witness :
  wf_board initial_board = true ∧ on_board "e2" = true ∧ on_board "e4" = true ∧
  (check_move initial_board "e2" "e4" White = Ok true ↔
   ∃ p, board_get initial_board (rank_of "e2") (file_of "e2") = Ok (Some p)
     ∧ p_color p = White
     ∧ (∀ q, board_get initial_board (rank_of "e4") (file_of "e4") = Ok (Some q) →
             p_color q ≠ White)
     ∧ get_movement p "e2" "e4" White initial_board = Ok true).
Proof.
  do 3 (split; [run|]). apply check_move_accepts; run.
Defined.

Lemma move_piece_quiet_witness :
  wf_board initial_board = true ∧ on_board "e2" = true ∧ on_board "e4" = true ∧
  board_get initial_board (rank_of "e2") (file_of "e2")
    = Ok (Some (Piece White Pawn)) ∧
  board_get initial_board (rank_of "e4") (file_of "e4") = Ok None ∧
  ∃ b', move_piece initial_board "e2" "e4" = Ok b' ∧
    board_get b' (rank_of "e2") (file_of "e2") = Ok None ∧
    board_get b' (rank_of "e4") (file_of "e4") = Ok (Some (Piece White Pawn)).
Proof.
  do 5 (split; [run|]).
  destruct (move_piece_quiet initial_board "e2" "e4" (Some (Piece White Pawn)))
    as (b' & H1 & _ & H2 & H3 & _); [run..|].
  exists b'. do 2 (split; [done|]). apply H3.
  intros [H _]. vm_compute in H. discriminate H.
Defined.

Lemma move_piece_no_new_piece_witness :
  let b' := g_board (game_after [("e2", "e4")%string]) in
  wf_board initial_board = true ∧ on_board "e2" = true ∧ on_board "e4" = true ∧
  move_piece initial_board "e2" "e4" = Ok b' ∧
  board_get b' 4 4 = Ok (Some (Piece White Pawn)) ∧
  (board_get initial_board 4 4 = Ok (Some (Piece White Pawn))
   ∨ (4 = rank_of "e4" ∧ 4 = file_of "e4"
      ∧ board_get initial_board (rank_of "e4") (file_of "e4") = Ok None
      ∧ board_get initial_board (rank_of "e2") (file_of "e2")
        = Ok (Some (Piece White Pawn)))).
Proof.
  cbv zeta. do 5 (split; [run|]).
  apply (move_piece_no_new_piece initial_board
           (g_board (game_after [("e2", "e4")%string])) "e2" "e4" 4 4
           (Piece White Pawn)); first [run | lia].
Defined.

Lemma make_move_squares_witness :
  wf_board (g_board new_game) = true ∧
  make_move new_game "e2" "e4" = Ok (true, game_after [("e2", "e4")%string]) ∧
  ∃ p y,
    board_get (g_board new_game) (rank_of "e2") (file_of "e2") = Ok (Some p) ∧
    p_color p = turn new_game ∧
    board_get (g_board new_game) (rank_of "e4") (file_of "e4") = Ok y ∧
    board_get (g_board (game_after [("e2", "e4")%string]))
      (rank_of "e2") (file_of "e2") = Ok None ∧
    board_get (g_board (game_after [("e2", "e4")%string]))
      (rank_of "e4") (file_of "e4") =
      Ok (match y with None => Some p | Some _ => None end).
Proof.
  do 2 (split; [run|]). apply make_move_squares; run.
Defined.

Lemma play_wf_board_witness :
  wf_board (g_board new_game) = true ∧
  play new_game queen_moves = Ok ([true; true], game_after queen_moves) ∧
  wf_board (g_board (game_after queen_moves)) = true.
Proof.
  do 2 (split; [run|]).
  apply (play_wf_board queen_moves new_game (game_after queen_moves) [true; true]);
    run.
Defined.

Lemma play_status_witness :
  wf_board (g_board new_game) = true ∧
  game_state new_game = status_of_kings (g_board new_game) ∧
  play new_game white_wins_moves
    = Ok (replicate 5 true, game_after white_wins_moves) ∧
  game_state (game_after white_wins_moves)
    = status_of_kings (g_board (game_after white_wins_moves)).
Proof.
  do 3 (split; [run|]).
  apply (play_status white_wins_moves new_game (game_after white_wins_moves)
           (replicate 5 true)); run.
Defined.

Lemma play_finished_witness :
  game_state (game_after white_wins_moves) ≠ UNFINISHED ∧
  play (game_after white_wins_moves) [("a5", "a4"); ("z9", "")]%string
    = Ok (replicate 2 false, game_after white_wins_moves).
Proof.
  assert (game_state (game_after white_wins_moves) = WHITE_WON) as H by run.
  assert (game_state (game_after white_wins_moves) ≠ UNFINISHED) as H'
    by (rewrite H; discriminate).
  split; [exact H'|].
  apply (play_finished [("a5", "a4"); ("z9", "")]%string), H'.
Defined.

Lemma play_turn_witness :
  play new_game [("e2", "e4"); ("e2", "e4"); ("a7", "a6"); ("d1", "h5")]%string
    = Ok ([true; false; true; true],
          game_after [("e2", "e4"); ("a7", "a6"); ("d1", "h5")]%string) ∧
  length [true; false; true; true] = 4%nat ∧
  turn (game_after [("e2", "e4"); ("a7", "a6"); ("d1", "h5")]%string)
    = other (turn new_game).
Proof.
  split; [run|].
  apply (play_turn [("e2", "e4"); ("e2", "e4"); ("a7", "a6"); ("d1", "h5")]%string
           new_game
           (game_after [("e2", "e4"); ("a7", "a6"); ("d1", "h5")]%string)
           [true; false; true; true]).
  run.
Defined.

Lemma make_move_returns_witness :
  wf_board (g_board new_game) = true ∧ on_board "e2" = true ∧ on_board "e4" = true ∧
  board_get (g_board new_game) (rank_of "e2") (file_of "e2")
    = Ok (Some (Piece White Pawn)) ∧
  ∃ r g', make_move new_game "e2" "e4" = Ok (r, g').
Proof.
  assert (board_get (g_board new_game) (rank_of "e2") (file_of "e2")
          = Ok (Some (Piece White Pawn))) as H by run.
  do 3 (split; [run|]). split; [exact H|].
  apply make_move_returns; [run..|].
  intros p Hp. rewrite H in Hp. injection Hp as <-. discriminate.
Defined.

Lemma make_move_queen_overrun_witness :
  let g := game_after queen_moves in
  wf_board (g_board g) = true ∧ game_state g = UNFINISHED ∧
  on_board "d1" = true ∧ on_board "h8" = true ∧
  board_get (g_board g) (rank_of "d1") (file_of "d1")
    = Ok (Some (Piece (turn g) Queen)) ∧
  board_get (g_board g) (rank_of "h8") (file_of "h8")
    = Ok (Some (Piece Black Rook)) ∧
  rank_of "d1" < rank_of "h8" ∧ file_of "d1" < file_of "h8" ∧
  8 < file_of "d1" + (rank_of "h8" - rank_of "d1") ∧
  make_move g "d1" "h8" = Raise IndexError.
Proof.
  cbv zeta.
  assert (board_get (g_board (game_after queen_moves)) (rank_of "h8") (file_of "h8")
          = Ok (Some (Piece Black Rook))) as Hdst by run.
  do 5 (split; [run|]). split; [exact Hdst|].
  do 3 (split; [run|]).
  apply make_move_queen_overrun; [run..| |run|run|run|].
  - intros q Hq. rewrite Hdst in Hq. injection Hq as <-.
    vm_compute. discriminate.
  - intros k Hk Hle.
    assert (file_of "d1" = 3) as E by run. rewrite E in Hle.
    assert (k = 1 ∨ k = 2 ∨ k = 3 ∨ k = 4) as [->|[->|[->| ->]]] by lia; run.
Defined.
